(** * DXF hatch generator: the two request handlers of [backend/main.py]

    The handlers [generate] and [hatch_on_upload] are embedded as programs
    of a small monad that threads the log of calls made to the drawing
    library and stops at the first raised exception.  The drawing library
    itself (ezdxf) is not part of the repository: its document object is
    modelled by a record, its parser, template factory and serializer are
    section variables, and every mutating call may raise. *)

From Stdlib Require Import ZArith String Ascii List Bool.
From Stdlib Require Import Floats.SpecFloat DecimalString.
From stdpp Require Import gmap strings list.

Local Open Scope Z_scope.

(** ** Python strings *)

Module PyStr.

(** The double quote character, used inside the Content-Disposition value. *)
Definition dquote : string := String "034"%char EmptyString.

(** [str.lower()] on one character.  Only the ASCII letters matter for the
    comparison with [.dxf]; other characters are left as they are. *)
Definition lower_char (c : ascii) : ascii :=
  let n := nat_of_ascii c in
  if ((65 <=? n)%nat && (n <=? 90)%nat)%bool then ascii_of_nat (n + 32) else c.

Fixpoint lower (s : string) : string :=
  match s with
  | EmptyString => EmptyString
  | String c s' => String (lower_char c) (lower s')
  end.

(** [s.endswith(suffix)] *)
Fixpoint endswith (s suffix : string) : bool :=
  if String.eqb s suffix then true
  else match s with
       | EmptyString => false
       | String _ s' => endswith s' suffix
       end.

(** Index of the rightmost occurrence of [sep] in [s] ([str.rfind]). *)
Fixpoint rfind (sep s : string) : option nat :=
  match s with
  | EmptyString => if String.prefix sep s then Some 0%nat else None
  | String _ s' =>
      match rfind sep s' with
      | Some i => Some (S i)
      | None => if String.prefix sep s then Some 0%nat else None
      end
  end.

(** [s.rsplit(sep, 1)]: split once, at the rightmost occurrence of [sep];
    a string without [sep] comes back whole. *)
Definition rsplit1 (sep s : string) : list string :=
  match rfind sep s with
  | Some i =>
      [ substring 0 i s;
        substring (i + String.length sep)
                  (String.length s - (i + String.length sep)) s ]
  | None => [ s ]
  end.

(** [l[0]] on the result of a split, which is never empty. *)
Definition item0 (l : list string) : string := hd EmptyString l.

(** [str(n)] for a Python integer. *)
Definition str_of_int (n : Z) : string := NilZero.string_of_int (Z.to_int n).

End PyStr.

(** ** Python floats *)

Module PyFloat.

(** A Python [float] is an IEEE-754 binary64 value. *)
Definition float : Set := spec_float.

Definition zero : float := S754_zero false.

(** [x > 0], as pydantic's [gt=0] evaluates it (false on NaN). *)
Definition gt0 (x : float) : bool := SFltb zero x.

Definition is_finite (x : float) : bool :=
  match x with
  | S754_zero _ | S754_finite _ _ _ => true
  | S754_infinity _ | S754_nan => false
  end.

(** Truncation toward zero of a finite value [(-1)^s * m * 2^e]. *)
Definition trunc (x : float) : Z :=
  match x with
  | S754_finite s m e =>
      let magnitude := Z.shiftl (Z.pos m) e in
      if s then - magnitude else magnitude
  | _ => 0
  end.

(** *** [repr] of a float

    Python writes a float with the fewest digits that read back as the same
    float; among the decimals with that many digits it takes the one
    nearest to the float. *)

(** [ceil (a / u)] for [u > 0] *)
Definition cdiv (a u : Z) : Z := (a + u - 1) / u.

(** The integers [d] such that the decimal [d * 10^q] reads back, rounding
    to nearest with ties to even, as the float [m * 2^e]: the least one,
    the greatest one, and the integer nearest to [m * 2^e / 10^q].  All
    quantities are scaled to integers: the float is [4 * m * S / D], the
    midpoints to its neighbours are [(4 * m - 2) * S / D] (or
    [(4 * m - 1) * S / D] just above a power of two) and
    [(4 * m + 2) * S / D]; a midpoint reads back as the float when [m] is
    even. *)
Definition decimals (m : positive) (e q : Z) : Z * Z * Z :=
  let closed := Z.even (Z.pos m) in
  let narrow := (Z.pos m =? 2 ^ 52) && (-1074 <? e) in
  let S := 2 ^ Z.max (e - 2) 0 in
  let D := 2 ^ Z.max (2 - e) 0 in
  let T := 10 ^ Z.max (- q) 0 in
  let U := D * 10 ^ Z.max q 0 in
  let A := (if narrow then 4 * Z.pos m - 1 else 4 * Z.pos m - 2) * S * T in
  let B := (4 * Z.pos m + 2) * S * T in
  let C := 4 * Z.pos m * S * T in
  let dmin := if closed then cdiv A U else A / U + 1 in
  let dmax := if closed then B / U else cdiv B U - 1 in
  let d0 := C / U in
  let r := C mod U in
  let near := if 2 * r <? U then d0
              else if U <? 2 * r then d0 + 1
              else if Z.even d0 then d0 else d0 + 1 in
  (dmin, dmax, near).

(** The greatest exponent [q], from [q] downwards, at which some decimal
    [d * 10^q] reads back as the float, with the [d] nearest to it. *)
Fixpoint shortest_from (fuel : nat) (m : positive) (e q : Z) : Z * Z :=
  match fuel with
  | O => (0, 0)
  | S fuel' =>
      let '(dmin, dmax, near) := decimals m e q in
      if dmin <=? dmax then (Z.max dmin (Z.min dmax near), q)
      else shortest_from fuel' m e (q - 1)
  end.

(** The search starts just above the decimal exponent of the float; a
    decimal of seventeen digits always reads back. *)
Definition shortest (m : positive) (e : Z) : Z * Z :=
  let q0 := (Z.log2 (4 * Z.pos m + 2) + e) * 30103 / 100000 + 1 in
  shortest_from 40 m e q0.

Fixpoint zeros (n : nat) : string :=
  match n with
  | O => EmptyString
  | S n' => String "0" (zeros n')
  end.

(** The exponent is written with two digits at least. *)
Definition pad2 (s : string) : string :=
  match s with
  | String c EmptyString => String "0" s
  | _ => s
  end.

(** [repr] of the magnitude [m * 2^e]: exponent notation when the decimal
    point would sit more than three zeros before the digits or more than
    sixteen places after the first one. *)
Definition repr_finite (m : positive) (e : Z) : string :=
  let '(d, q) := shortest m e in
  let digits := PyStr.str_of_int d in
  let n := Z.of_nat (String.length digits) in
  let decpt := n + q in
  if (decpt <=? -4) || (16 <? decpt) then
    let exp := decpt - 1 in
    substring 0 1 digits
    +:+ (if 1 <? n then "." +:+ substring 1 (String.length digits - 1) digits
         else EmptyString)
    +:+ "e" +:+ (if exp <? 0 then "-" else "+")
    +:+ pad2 (PyStr.str_of_int (Z.abs exp))
  else if decpt <=? 0 then
    "0." +:+ zeros (Z.to_nat (- decpt)) +:+ digits
  else if n <=? decpt then
    digits +:+ zeros (Z.to_nat (decpt - n)) +:+ ".0"
  else
    substring 0 (Z.to_nat decpt) digits +:+ "."
    +:+ substring (Z.to_nat decpt) (String.length digits - Z.to_nat decpt) digits.

(** [repr(x)], which is also [str(x)] and what an f-string writes. *)
Definition repr (x : float) : string :=
  match x with
  | S754_zero false => "0.0"
  | S754_zero true => "-0.0"
  | S754_infinity false => "inf"
  | S754_infinity true => "-inf"
  | S754_nan => "nan"
  | S754_finite s m e => (if s then "-" else EmptyString) +:+ repr_finite m e
  end.

End PyFloat.

(** ** Exceptions and outcomes *)

(** A Python exception other than [HTTPException]: its class and [str(e)]. *)
Record exn := Exc { exc_class : string; exc_str : string }.

Definition ValueError (msg : string) : exn := Exc "ValueError" msg.
Definition OverflowError (msg : string) : exn := Exc "OverflowError" msg.
Definition AttributeError (msg : string) : exn := Exc "AttributeError" msg.
Definition DXFTableEntryError (msg : string) : exn := Exc "DXFTableEntryError" msg.

(** What a handler run ends with: a value, a raised [HTTPException] (the
    framework answers with that status code and detail), or any other
    exception, which nothing catches (the framework answers HTTP 500). *)
Inductive outcome (A : Type) : Type :=
| Ok (a : A)
| HTTPException (status_code : Z) (detail : string)
| Unhandled (e : exn).

Arguments Ok {A} a.
Arguments HTTPException {A} status_code detail.
Arguments Unhandled {A} e.

(** [int(x)] on a float: NaN and the infinities raise. *)
Definition int_of_float (x : PyFloat.float) : outcome Z :=
  match x with
  | S754_nan => Unhandled (ValueError "cannot convert float NaN to integer")
  | S754_infinity _ =>
      Unhandled (OverflowError "cannot convert float infinity to integer")
  | _ => Ok (PyFloat.trunc x)
  end.


(** ** The drawing document

    The document object of the drawing library, reduced to what the handlers
    read and write: header variables, the layer table and the model space. *)

Definition bytes : Type := list Byte.byte.

(** A centre: the handler passes a pair [(cx, cy)]; a loaded entity carries
    a three-component vector. *)
Inductive point : Type :=
| Vec2 (x y : PyFloat.float)
| Vec3 (x y z : PyFloat.float).

Record circle := Build_circle {
  circle_center : point;
  circle_radius : PyFloat.float;
  circle_layer : string
}.

(** A boundary path of a hatch.  The handlers only ever add circular paths;
    a loaded hatch may carry paths of other kinds. *)
Inductive boundary_path : Type :=
| CirclePath (center : point) (radius : PyFloat.float)
| OtherPath (kind : string).

Record pattern_fill := Build_pattern_fill {
  pattern_name : string;
  pattern_angle : PyFloat.float;
  pattern_scale : PyFloat.float
}.

(** A hatch entity.  [hatch_pattern = None] is the solid fill a hatch has
    until [set_pattern_fill] is called. *)
Record hatch := Build_hatch {
  hatch_layer : string;
  hatch_associative : bool;
  hatch_paths : list boundary_path;
  hatch_pattern : option pattern_fill
}.

Inductive entity : Type :=
| Circle (c : circle)
| Hatch (h : hatch)
| Other (kind : string).

(** [e.dxftype()] *)
Definition dxftype (e : entity) : string :=
  match e with
  | Circle _ => "CIRCLE"
  | Hatch _ => "HATCH"
  | Other kind => kind
  end.

(** Layer names are kept in table order, so that a duplicate entry would be
    visible; the model space is the list of entities in stored order. *)
Record document := Build_document {
  header : gmap string Z;
  layers : list string;
  modelspace : list entity
}.

Definition set_header (k : string) (v : Z) (d : document) : document :=
  Build_document (<[k := v]> (header d)) (layers d) (modelspace d).

Definition set_layers (ls : list string) (d : document) : document :=
  Build_document (header d) ls (modelspace d).

Definition set_modelspace (es : list entity) (d : document) : document :=
  Build_document (header d) (layers d) es.

(** A hatch as [add_hatch] creates it. *)
Definition new_hatch (layer : string) : hatch :=
  Build_hatch layer false [] None.

(** Mutation of a hatch through the reference [add_hatch] returned: the
    entity sits in the model space at position [i]. *)
Definition on_hatch (f : hatch -> hatch) (e : entity) : entity :=
  match e with
  | Hatch h => Hatch (f h)
  | _ => e
  end.

Definition update_hatch (i : nat) (f : hatch -> hatch) (d : document) : document :=
  set_modelspace (alter (on_hatch f) i (modelspace d)) d.

Definition with_associative (flag : bool) (h : hatch) : hatch :=
  Build_hatch (hatch_layer h) flag (hatch_paths h) (hatch_pattern h).

Definition with_path (p : boundary_path) (h : hatch) : hatch :=
  Build_hatch (hatch_layer h) (hatch_associative h) (hatch_paths h ++ [p])
              (hatch_pattern h).

Definition with_pattern (pf : pattern_fill) (h : hatch) : hatch :=
  Build_hatch (hatch_layer h) (hatch_associative h) (hatch_paths h) (Some pf).

(** ** Calls into the drawing library and their log *)

Inductive libcall : Type :=
| call_new (version : string)
| call_read (content : bytes)
| call_header_set (key : string) (value : Z)
| call_layers_new (name : string)
| call_add_circle (center : point) (radius : PyFloat.float) (layer : string)
| call_add_hatch (layer : string)
| call_set_associative (flag : bool)
| call_edit_boundary
| call_boundary_add_circle (center : point) (radius : PyFloat.float)
| call_set_pattern_fill (name : string) (angle scale : PyFloat.float)
| call_saveas (doc : document).

(** One entry of the log: the call, and the exception it raised if any. *)
Record event := Event { ev_call : libcall; ev_raised : option exn }.

Definition trace : Type := list event.

(** ** The handler monad: log passing, stop at the first exception *)

Definition M (A : Type) : Type := trace -> outcome A * trace.

Definition ret {A} (a : A) : M A := fun t => (Ok a, t).

Definition bind {A B} (m : M A) (k : A -> M B) : M B :=
  fun t =>
    match m t with
    | (Ok a, t') => k a t'
    | (HTTPException s d, t') => (HTTPException s d, t')
    | (Unhandled e, t') => (Unhandled e, t')
    end.

(** [raise HTTPException(status_code=..., detail=...)] *)
Definition raise_http {A} (status_code : Z) (detail : string) : M A :=
  fun t => (HTTPException status_code detail, t).

(** A Python builtin that may raise, run inside a handler. *)
Definition lift {A} (o : outcome A) : M A := fun t => (o, t).

(** [try: m  except Exception as e: handler e], for a guarded block that
    raises library exceptions only. *)
Definition try_except {A} (m : M A) (handler : exn -> M A) : M A :=
  fun t =>
    match m t with
    | (Unhandled e, t') => handler e t'
    | r => r
    end.

(** A library call: it is logged, and either raises or returns. *)
Definition libcall_outcome {A} (c : libcall) (r : exn + A) : M A :=
  fun t =>
    match r with
    | inl e => (Unhandled e, t ++ [Event c (Some e)])
    | inr a => (Ok a, t ++ [Event c None])
    end.

Notation "x <- m ;; k" := (bind m (fun x => k))
  (at level 100, m at next level, right associativity).

(** ** Requests and responses *)

(** The request body of [/generate]; pydantic constrains [radius] and
    [spacing] with [gt=0]. *)
Record GenerateParams := Build_GenerateParams {
  center_x : PyFloat.float;
  center_y : PyFloat.float;
  radius : PyFloat.float;
  spacing : PyFloat.float;
  angle_deg : PyFloat.float;
  layer_circle : string;
  layer_hatch : string;
  version : string
}.

(** The schema check made before [generate] is entered. *)
Definition valid_params (p : GenerateParams) : bool :=
  PyFloat.gt0 (radius p) && PyFloat.gt0 (spacing p).

(** The JSON body of [/generate] before the defaults are filled in: every
    field may be left out. *)
Record GenerateBody := Build_GenerateBody {
  body_center_x : option PyFloat.float;
  body_center_y : option PyFloat.float;
  body_radius : option PyFloat.float;
  body_spacing : option PyFloat.float;
  body_angle_deg : option PyFloat.float;
  body_layer_circle : option string;
  body_layer_hatch : option string;
  body_version : option string
}.

(** The defaults of the schema: [10.0], [0.2] and [45.0] as binary64. *)
Definition default_radius : PyFloat.float := S754_finite false 5629499534213120 (-49).
Definition default_spacing : PyFloat.float := S754_finite false 7205759403792794 (-55).
Definition default_angle_deg : PyFloat.float := S754_finite false 6333186975989760 (-47).

(** The schema applied to a body: a field left out takes its [Field]
    default. *)
Definition params_of_body (b : GenerateBody) : GenerateParams :=
  Build_GenerateParams
    (default PyFloat.zero (body_center_x b))
    (default PyFloat.zero (body_center_y b))
    (default default_radius (body_radius b))
    (default default_spacing (body_spacing b))
    (default default_angle_deg (body_angle_deg b))
    (default "CIRCLE" (body_layer_circle b))
    (default "HATCH" (body_layer_hatch b))
    (default "R2018" (body_version b)).

Record UploadFile := Build_UploadFile {
  filename : string;
  file : bytes
}.

Record StreamingResponse := Build_StreamingResponse {
  body : bytes;
  media_type : string;
  headers : list (string * string)
}.

(** The header value [attachment; filename=...] with the name in quotes. *)
Definition content_disposition (name : string) : string :=
  "attachment; filename=" +:+ PyStr.dquote +:+ name +:+ PyStr.dquote.

Definition dxf_response (buf : bytes) (name : string) : StreamingResponse :=
  Build_StreamingResponse buf "application/dxf"
    [("Content-Disposition", content_disposition name)].

(** ** A stand-in for the drawing library

    A small library instance on which the handlers can be run: a template
    with the two layers every new drawing has, a reader for a one byte per
    entity encoding, a serializer that writes the entity types, and calls
    that never fail. *)

Module Sample.

Definition f0_2 : PyFloat.float := S754_finite false 7205759403792794 (-55).
Definition f1 : PyFloat.float := S754_finite false 4503599627370496 (-52).
Definition f10 : PyFloat.float := S754_finite false 5629499534213120 (-49).
Definition f45 : PyFloat.float := S754_finite false 6333186975989760 (-47).
Definition inf : PyFloat.float := S754_infinity false.

Definition template : document := Build_document ∅ ["0"; "Defpoints"] [].

Definition new (v : string) : exn + document :=
  if bool_decide (v ∈ ["R12"; "R2000"; "R2004"; "R2007"; "R2010"; "R2013"; "R2018"])
  then inr template
  else inl (Exc "DXFVersionError" ("Unsupported DXF version: " +:+ v)).

(** [C] is a unit circle at the origin, [D] a circle of radius 10, any other
    byte a line. *)
Definition entity_of_byte (b : Byte.byte) : entity :=
  match b with
  | Byte.x43 => Circle (Build_circle (Vec3 PyFloat.zero PyFloat.zero PyFloat.zero) f1 "0")
  | Byte.x44 => Circle (Build_circle (Vec3 f1 f1 PyFloat.zero) f10 "0")
  | _ => Other "LINE"
  end.

Definition read (content : bytes) : exn + document :=
  match content with
  | [] => inl (Exc "DXFStructureError" "Not a DXF file.")
  | _ => inr (Build_document ∅ ["0"] (map entity_of_byte content))
  end.

Definition byte_of_entity (e : entity) : Byte.byte :=
  match e with
  | Circle _ => Byte.x43
  | Hatch _ => Byte.x48
  | Other _ => Byte.x4c
  end.

(** The entity types, then an end-of-file mark. *)
Definition write (d : document) : exn + bytes :=
  inr (map byte_of_entity (modelspace d) ++ [Byte.x45; Byte.x4f; Byte.x46]).

Definition raises (doc : document) (c : libcall) : option exn := None.

Definition key (name : string) : string := PyStr.lower name.

(** A library whose [add_hatch] fails. *)
Definition raises_on_hatch (doc : document) (c : libcall) : option exn :=
  match c with
  | call_add_hatch _ => Some (Exc "DXFValueError" "invalid layer name")
  | _ => None
  end.

(** A library whose [layers.new] fails. *)
Definition raises_on_layer (doc : document) (c : libcall) : option exn :=
  match c with
  | call_layers_new _ => Some (Exc "DXFValueError" "invalid layer name")
  | _ => None
  end.


(** Requests: the defaults of the schema, and the same with an angle that
    is not finite. *)
Definition request : GenerateParams :=
  Build_GenerateParams PyFloat.zero PyFloat.zero f10 f0_2 f45 "CIRCLE" "HATCH" "R2018".

Definition request_inf_angle : GenerateParams :=
  Build_GenerateParams PyFloat.zero PyFloat.zero f10 f0_2 inf "CIRCLE" "HATCH" "R2018".

Definition request_nan_angle : GenerateParams :=
  Build_GenerateParams PyFloat.zero PyFloat.zero f10 f0_2 S754_nan "CIRCLE" "HATCH" "R2018".

(** Uploads: a line followed by two circles, under an upper-case and a
    lower-case name; a text file; an empty file; a drawing of two lines. *)
Definition upload_upper : UploadFile :=
  Build_UploadFile "PLATE.DXF" [Byte.x4c; Byte.x44; Byte.x43].

Definition upload_lower : UploadFile :=
  Build_UploadFile "plate.dxf" [Byte.x4c; Byte.x44; Byte.x43].

Definition upload_text : UploadFile := Build_UploadFile "plate.txt" [Byte.x4c].

Definition upload_empty : UploadFile := Build_UploadFile "plate.dxf" [].

Definition upload_lines : UploadFile :=
  Build_UploadFile "plate.dxf" [Byte.x4c; Byte.x4c].

Definition minus1 : PyFloat.float := S754_finite true 4503599627370496 (-52).


(** A circle uploaded under a name with [.dxf] inside and an upper-case
    extension. *)
Definition upload_inner : UploadFile := Build_UploadFile "a.dxf.DXF" [Byte.x43].

(** What the reader makes of [upload_lower], and its first circle. *)
Definition parsed_lower : document :=
  Build_document ∅ ["0"] (map entity_of_byte (file upload_lower)).


End Sample.

(** ** The library interface and the handlers *)

Section Handlers.

(** [ezdxf.new(setup=True, version=v)]: the template document of a format
    version, or the exception raised for a version it does not know. *)
Variable ezdxf_new : string -> exn + document.

(** [ezdxf.read(stream)]: the parsed document, or the parser's exception. *)
Variable ezdxf_read : bytes -> exn + document.

(** [doc.saveas(buf)]: the bytes written, or the serializer's exception. *)
Variable write_dxf : document -> exn + bytes.

(** Failure of the calls that build or change a document in memory: the
    exception such a call raises on a given document, if it does. *)
Variable lib_raises : document -> libcall -> option exn.

(** The key under which the layer table files a name. *)
Variable layer_key : string -> string.

Definition guarded {A} (doc : document) (c : libcall) (a : A) : exn + A :=
  match lib_raises doc c with
  | Some e => inl e
  | None => inr a
  end.

Definition lib_new (v : string) : M document :=
  libcall_outcome (call_new v) (ezdxf_new v).

Definition lib_read (content : bytes) : M document :=
  libcall_outcome (call_read content) (ezdxf_read content).

(** [doc.header[key] = value] *)
Definition header_setitem (doc : document) (key : string) (value : Z) : M document :=
  libcall_outcome (call_header_set key value)
    (guarded doc (call_header_set key value) (set_header key value doc)).

(** [name in doc.layers] *)
Definition layers_contains (doc : document) (name : string) : bool :=
  bool_decide (layer_key name ∈ layer_key <$> layers doc).

(** [doc.layers.new(name=name)]: the table refuses a name it already has. *)
Definition layers_new (doc : document) (name : string) : M document :=
  libcall_outcome (call_layers_new name)
    (if layers_contains doc name
     then inl (DXFTableEntryError ("LAYER " +:+ name +:+ " already exists!"))
     else guarded doc (call_layers_new name) (set_layers (layers doc ++ [name]) doc)).

(** [msp.add_circle(center, radius, dxfattribs={"layer": layer})]; the
    entity is appended and its position returned as the reference to it. *)
Definition msp_add_circle (doc : document) (center : point) (r : PyFloat.float)
    (layer : string) : M (document * nat) :=
  libcall_outcome (call_add_circle center r layer)
    (guarded doc (call_add_circle center r layer)
       (set_modelspace (modelspace doc ++ [Circle (Build_circle center r layer)]) doc,
        length (modelspace doc))).

(** [msp.add_hatch(dxfattribs={"layer": layer})] *)
Definition msp_add_hatch (doc : document) (layer : string) : M (document * nat) :=
  libcall_outcome (call_add_hatch layer)
    (guarded doc (call_add_hatch layer)
       (set_modelspace (modelspace doc ++ [Hatch (new_hatch layer)]) doc,
        length (modelspace doc))).

(** [hatch.set_associative(flag)] *)
Definition hatch_set_associative (doc : document) (h : nat) (flag : bool) : M document :=
  libcall_outcome (call_set_associative flag)
    (guarded doc (call_set_associative flag) (update_hatch h (with_associative flag) doc)).

(** Entering [with hatch.edit_boundary() as e] *)
Definition hatch_edit_boundary (doc : document) (h : nat) : M nat :=
  libcall_outcome call_edit_boundary (guarded doc call_edit_boundary h).

(** [e.add_circle(center, radius)] on the boundary of hatch [h] *)
Definition boundary_add_circle (doc : document) (h : nat) (center : point)
    (r : PyFloat.float) : M document :=
  libcall_outcome (call_boundary_add_circle center r)
    (guarded doc (call_boundary_add_circle center r)
       (update_hatch h (with_path (CirclePath center r)) doc)).

(** [hatch.set_pattern_fill(name, angle=angle, scale=scale)] *)
Definition hatch_set_pattern_fill (doc : document) (h : nat) (name : string)
    (angle scale : PyFloat.float) : M document :=
  libcall_outcome (call_set_pattern_fill name angle scale)
    (guarded doc (call_set_pattern_fill name angle scale)
       (update_hatch h (with_pattern (Build_pattern_fill name angle scale)) doc)).

(** [buf = io.BytesIO(); doc.saveas(buf); buf.seek(0)] *)
Definition doc_saveas (doc : document) : M bytes :=
  libcall_outcome (call_saveas doc) (write_dxf doc).

(** [first_circle.dxf.center] and [first_circle.dxf.radius]: only a circle
    has them. *)
Definition dxf_center (e : entity) : outcome point :=
  match e with
  | Circle c => Ok (circle_center c)
  | _ => Unhandled (AttributeError "center")
  end.

Definition dxf_radius (e : entity) : outcome PyFloat.float :=
  match e with
  | Circle c => Ok (circle_radius c)
  | _ => Unhandled (AttributeError "radius")
  end.

(** *** [_doc_with_units] *)
Definition _doc_with_units (v : string) : M document :=
  doc <- lib_new v ;;
  header_setitem doc "$INSUNITS" 4.

(** *** [_make_layers] *)
Fixpoint _make_layers (doc : document) (layer_names : list string) : M document :=
  match layer_names with
  | [] => ret doc
  | name :: rest =>
      doc <- (if negb (layers_contains doc name)
              then layers_new doc name
              else ret doc) ;;
      _make_layers doc rest
  end.

(** *** [_add_circle_with_hatch] *)
Definition _add_circle_with_hatch (doc : document) (cx cy r spacing angle_deg : PyFloat.float)
    (layer_circle layer_hatch : string) : M document :=
  c <- msp_add_circle doc (Vec2 cx cy) r layer_circle ;;
  h <- msp_add_hatch (fst c) layer_hatch ;;
  doc <- hatch_set_associative (fst h) (snd h) true ;;
  e <- hatch_edit_boundary doc (snd h) ;;
  doc <- boundary_add_circle doc e (Vec2 cx cy) r ;;
  hatch_set_pattern_fill doc (snd h) "ANSI31" angle_deg spacing.

(** *** [generate] *)
Definition generate (params : GenerateParams) : M StreamingResponse :=
  doc <- _doc_with_units (version params) ;;
  doc <- _make_layers doc [layer_circle params; layer_hatch params] ;;
  doc <- _add_circle_with_hatch doc (center_x params) (center_y params)
           (radius params) (spacing params) (angle_deg params)
           (layer_circle params) (layer_hatch params) ;;
  buf <- doc_saveas doc ;;
  angle <- lift (int_of_float (angle_deg params)) ;;
  ret (dxf_response buf
         ("circle_hatch_" +:+ PyFloat.repr (spacing params) +:+ "mm_"
          +:+ PyStr.str_of_int angle +:+ "deg.dxf")).

(** The loop over the model space: the first entity whose type is CIRCLE. *)
Fixpoint first_circle_of (msp : list entity) : option entity :=
  match msp with
  | [] => None
  | e :: rest =>
      if String.eqb (dxftype e) "CIRCLE" then Some e else first_circle_of rest
  end.

(** *** [hatch_on_upload] *)
Definition hatch_on_upload (upload : UploadFile) (spacing angle_deg : PyFloat.float)
    (layer_hatch : string) : M StreamingResponse :=
  if negb (PyStr.endswith (PyStr.lower (filename upload)) ".dxf")
  then raise_http 400 "Carica un file .dxf"
  else
    let content := file upload in
    doc <- try_except (lib_read content)
             (fun e => raise_http 400 ("DXF non valido: " +:+ exc_str e)) ;;
    doc <- _make_layers doc [layer_hatch] ;;
    match first_circle_of (modelspace doc) with
    | None => raise_http 400 "Nessun CIRCLE trovato nel DXF caricato."
    | Some first_circle =>
        h <- msp_add_hatch doc layer_hatch ;;
        doc <- hatch_set_associative (fst h) (snd h) true ;;
        ed <- hatch_edit_boundary doc (snd h) ;;
        center <- lift (dxf_center first_circle) ;;
        r <- lift (dxf_radius first_circle) ;;
        doc <- boundary_add_circle doc ed center r ;;
        doc <- hatch_set_pattern_fill doc (snd h) "ANSI31" angle_deg spacing ;;
        buf <- doc_saveas doc ;;
        ret (dxf_response buf
               (PyStr.item0 (PyStr.rsplit1 ".dxf" (filename upload)) +:+ "_HATCHED.dxf"))
    end.


(** ** What the handlers are expected to build *)

(** The layer table after one name has been asked for. *)
Definition ensure_layer (ls : list string) (name : string) : list string :=
  if bool_decide (layer_key name ∈ layer_key <$> ls) then ls else ls ++ [name].

Definition ensure_layers (ls : list string) (names : list string) : list string :=
  foldl ensure_layer ls names.

(** The log [_make_layers] leaves when no call fails: one [layers.new] per
    name that was missing. *)
Fixpoint make_layers_events (ls : list string) (names : list string) : trace :=
  match names with
  | [] => []
  | name :: rest =>
      (if bool_decide (layer_key name ∈ layer_key <$> ls)
       then []
       else [Event (call_layers_new name) None])
      ++ make_layers_events (ensure_layer ls name) rest
  end.


(** The associative ANSI31 hatch over a circle. *)
Definition hatch_over (layer : string) (center : point) (r angle scale : PyFloat.float) : hatch :=
  Build_hatch layer true [CirclePath center r]
    (Some (Build_pattern_fill "ANSI31" angle scale)).

(** The document [generate] hands to the serializer, from the template [d0]. *)
Definition generated_document (d0 : document) (p : GenerateParams) : document :=
  Build_document
    (<["$INSUNITS" := 4]> (header d0))
    (ensure_layers (layers d0) [layer_circle p; layer_hatch p])
    (modelspace d0 ++
       [ Circle (Build_circle (Vec2 (center_x p) (center_y p)) (radius p) (layer_circle p));
         Hatch (hatch_over (layer_hatch p) (Vec2 (center_x p) (center_y p)) (radius p)
                  (angle_deg p) (spacing p)) ]).

(** The in-memory library calls [generate] makes. *)
Definition generate_calls (p : GenerateParams) : list libcall :=
  [ call_header_set "$INSUNITS" 4;
    call_layers_new (layer_circle p);
    call_layers_new (layer_hatch p);
    call_add_circle (Vec2 (center_x p) (center_y p)) (radius p) (layer_circle p);
    call_add_hatch (layer_hatch p);
    call_set_associative true;
    call_edit_boundary;
    call_boundary_add_circle (Vec2 (center_x p) (center_y p)) (radius p);
    call_set_pattern_fill "ANSI31" (angle_deg p) (spacing p) ].



(** What [generate] answers once the template [d0] has been obtained and
    the document built: serialization, then the file name. *)
Definition generate_outcome (d0 : document) (p : GenerateParams) : outcome StreamingResponse :=
  match write_dxf (generated_document d0 p) with
  | inl e => Unhandled e
  | inr buf =>
      match int_of_float (angle_deg p) with
      | Ok n =>
          Ok (dxf_response buf
                ("circle_hatch_" +:+ PyFloat.repr (spacing p) +:+ "mm_"
                 +:+ PyStr.str_of_int n +:+ "deg.dxf"))
      | HTTPException s d => HTTPException s d
      | Unhandled e => Unhandled e
      end
  end.

(** The log entry of a call that returned [r]. *)
Definition logged {A} (c : libcall) (r : exn + A) : event :=
  Event c (match r with inl e => Some e | inr _ => None end).

(** The log of such a run of [generate]. *)
Definition generate_trace (d0 : document) (p : GenerateParams) : trace :=
  [ Event (call_new (version p)) None;
    Event (call_header_set "$INSUNITS" 4) None ]
  ++ make_layers_events (layers d0) [layer_circle p; layer_hatch p]
  ++ [ Event (call_add_circle (Vec2 (center_x p) (center_y p)) (radius p) (layer_circle p)) None;
       Event (call_add_hatch (layer_hatch p)) None;
       Event (call_set_associative true) None;
       Event call_edit_boundary None;
       Event (call_boundary_add_circle (Vec2 (center_x p) (center_y p)) (radius p)) None;
       Event (call_set_pattern_fill "ANSI31" (angle_deg p) (spacing p)) None;
       logged (call_saveas (generated_document d0 p)) (write_dxf (generated_document d0 p)) ].



(** No entity of the list is a CIRCLE. *)
Definition no_circle (es : list entity) : Prop :=
  Forall (fun e => dxftype e <> "CIRCLE") es.

(** The layer asked for is in the table of [d] already, or [layers.new]
    creates it on [d] without raising. *)
Definition layer_ready (d : document) (name : string) : Prop :=
  layer_key name ∈ layer_key <$> layers d
  \/ lib_raises d (call_layers_new name) = None.

(** The extension check of [hatch_on_upload]. *)
Definition has_dxf_extension (name : string) : bool :=
  PyStr.endswith (PyStr.lower name) ".dxf".

(** No call of the list fails, on any document. *)
Definition quiet (cs : list libcall) : Prop :=
  Forall (fun c => forall doc, lib_raises doc c = None) cs.

(** A program lets exceptions through: it never raises [HTTPException],
    and whenever a library call it made raised, that exception is its
    outcome. *)
Definition propagates {A} (m : M A) : Prop :=
  forall t, exists evs,
    snd (m t) = t ++ evs
    /\ (forall ev e, ev ∈ evs -> ev_raised ev = Some e -> fst (m t) = Unhandled e)
    /\ (forall s d, fst (m t) <> HTTPException s d).

(** No entry of a log raised. *)
Definition clean (evs : list event) : Prop :=
  Forall (fun ev => ev_raised ev = None) evs.

(** A program makes no library call after one that raised, and does not
    return a value when one raised. *)
Definition halts {A} (m : M A) : Prop :=
  forall t, exists evs,
    snd (m t) = t ++ evs
    /\ (clean evs
        \/ exists pre ev, evs = pre ++ [ev] /\ clean pre
                          /\ forall a, fst (m t) <> Ok a).

(** Whenever a library call of the program raised, that exception is the
    program's outcome. *)
Definition lets_through {A} (m : M A) : Prop :=
  forall t, exists evs,
    snd (m t) = t ++ evs
    /\ forall ev e, ev ∈ evs -> ev_raised ev = Some e -> fst (m t) = Unhandled e.

(** What [hatch_on_upload] does once the upload has been parsed into [doc]. *)
Definition after_parse (up : UploadFile) (sp an : PyFloat.float) (lay : string)
    (doc : document) : M StreamingResponse :=
  doc <- _make_layers doc [lay] ;;
  match first_circle_of (modelspace doc) with
  | None => raise_http 400 "Nessun CIRCLE trovato nel DXF caricato."
  | Some first_circle =>
      h <- msp_add_hatch doc lay ;;
      doc <- hatch_set_associative (fst h) (snd h) true ;;
      ed <- hatch_edit_boundary doc (snd h) ;;
      center <- lift (dxf_center first_circle) ;;
      r <- lift (dxf_radius first_circle) ;;
      doc <- boundary_add_circle doc ed center r ;;
      doc <- hatch_set_pattern_fill doc (snd h) "ANSI31" an sp ;;
      buf <- doc_saveas doc ;;
      ret (dxf_response buf
             (PyStr.item0 (PyStr.rsplit1 ".dxf" (filename up)) +:+ "_HATCHED.dxf"))
  end.

(** ** Running library calls *)

Lemma libcall_quiet {A} (d : document) (c : libcall) (a : A) (t : trace) :
  lib_raises d c = None ->
  libcall_outcome c (guarded d c a) t = (Ok a, t ++ [Event c None]).
Proof. intros H. unfold libcall_outcome, guarded. now rewrite H. Qed.

Lemma libcall_fails {A} (d : document) (c : libcall) (a : A) (e : exn) (t : trace) :
  lib_raises d c = Some e ->
  libcall_outcome c (guarded d c a) t = (Unhandled e, t ++ [Event c (Some e)]).
Proof. intros H. unfold libcall_outcome, guarded. now rewrite H. Qed.

Lemma set_layers_same (d : document) : set_layers (layers d) d = d.
Proof. now destruct d. Qed.

Lemma set_layers_twice (ls ls' : list string) (d : document) :
  set_layers ls (set_layers ls' d) = set_layers ls d.
Proof. reflexivity. Qed.

Lemma alter_last {A} (f : A -> A) (l : list A) (x : A) :
  alter f (length l) (l ++ [x]) = l ++ [f x].
Proof. rewrite alter_app_r_alt by lia. now rewrite Nat.sub_diag. Qed.

(** ** The layer table *)

Lemma ensure_layer_present (ls : list string) (name : string) :
  layer_key name ∈ layer_key <$> ls -> ensure_layer ls name = ls.
Proof. intros H. unfold ensure_layer. now rewrite bool_decide_eq_true_2. Qed.

Lemma ensure_layer_missing (ls : list string) (name : string) :
  layer_key name ∉ layer_key <$> ls -> ensure_layer ls name = ls ++ [name].
Proof. intros H. unfold ensure_layer. now rewrite bool_decide_eq_false_2. Qed.







Lemma ensure_layers_present (names ls : list string) :
  (forall n, n ∈ names -> layer_key n ∈ layer_key <$> ls) ->
  ensure_layers ls names = ls /\ make_layers_events ls names = [].
Proof.
  induction names as [|n names IH]; intros H; simpl; [easy|].
  assert (Hn : layer_key n ∈ layer_key <$> ls) by (apply H, list_elem_of_here).
  rewrite (ensure_layer_present _ _ Hn), bool_decide_eq_true_2 by exact Hn.
  apply IH. intros m Hm. apply H. now apply list_elem_of_further.
Qed.


(** [_make_layers] when no [layers.new] call fails. *)
Lemma make_layers_run (names : list string) (d : document) (t : trace) :
  quiet (call_layers_new <$> names) ->
  _make_layers d names t
  = (Ok (set_layers (ensure_layers (layers d) names) d),
     t ++ make_layers_events (layers d) names).
Proof.
  revert d t. induction names as [|n names IH]; intros d t Hq; simpl.
  - unfold ret. now rewrite set_layers_same, app_nil_r.
  - simpl in Hq. apply Forall_cons in Hq. destruct Hq as [Hn Hq].
    unfold bind, layers_contains, ensure_layer.
    case_bool_decide as Hin; simpl.
    + unfold ret. now rewrite IH by exact Hq.
    + unfold layers_new, layers_contains.
      rewrite bool_decide_eq_false_2 by exact Hin.
      rewrite libcall_quiet by apply Hn.
      rewrite IH by exact Hq. simpl.
      now rewrite <- app_assoc.
Qed.

(** [_make_layers] for one name, when the call it may make does not fail. *)
Lemma make_layers_one (name : string) (d : document) (t : trace) :
  lib_raises d (call_layers_new name) = None ->
  _make_layers d [name] t
  = (Ok (set_layers (ensure_layer (layers d) name) d),
     t ++ make_layers_events (layers d) [name]).
Proof.
  intros Hn. cbn [_make_layers make_layers_events].
  unfold bind, layers_contains, ensure_layer.
  case_bool_decide as Hin; cbn [negb]; rewrite !app_nil_r.
  - unfold ret. now rewrite set_layers_same.
  - unfold layers_new, layers_contains.
    rewrite bool_decide_eq_false_2 by exact Hin.
    now rewrite libcall_quiet by exact Hn.
Qed.

(** Names already in the table: no call, no change, no error. *)
Lemma make_layers_noop (names : list string) (d : document) (t : trace) :
  (forall n, n ∈ names -> layer_key n ∈ layer_key <$> layers d) ->
  _make_layers d names t = (Ok d, t).
Proof.
  revert t. induction names as [|n names IH]; intros t H; simpl; [reflexivity|].
  unfold bind, layers_contains.
  rewrite bool_decide_eq_true_2 by (apply H, list_elem_of_here). simpl.
  apply IH. intros m Hm. apply H. now apply list_elem_of_further.
Qed.

(** ** Runs of [generate] *)

Lemma libcall_logged {A} (c : libcall) (r : exn + A) (t : trace) :
  libcall_outcome c r t
  = (match r with inl e => Unhandled e | inr a => Ok a end, t ++ [logged c r]).
Proof. now destruct r. Qed.

Ltac split_quiet H :=
  unfold quiet in H;
  repeat (let Hc := fresh "Hc" in
          apply Forall_cons in H; destruct H as [Hc H]).

Lemma hatch_built (d : document) (es : list entity) (layer : string)
    (path : boundary_path) (pf : pattern_fill) :
  update_hatch (length es) (with_pattern pf)
    (update_hatch (length es) (with_path path)
       (update_hatch (length es) (with_associative true)
          (set_modelspace (es ++ [Hatch (new_hatch layer)]) d)))
  = set_modelspace (es ++ [Hatch (Build_hatch layer true [path] (Some pf))]) d.
Proof.
  unfold update_hatch, set_modelspace. simpl.
  now rewrite !alter_last.
Qed.

Lemma bind_libcall_quiet {A B} (d : document) (c : libcall) (a : A)
    (k : A -> M B) (t : trace) :
  lib_raises d c = None ->
  bind (libcall_outcome c (guarded d c a)) k t = k a (t ++ [Event c None]).
Proof. intros H. unfold bind. now rewrite libcall_quiet. Qed.

Lemma add_circle_with_hatch_run (d : document) (cx cy r sp an : PyFloat.float)
    (lc lh : string) (t : trace) :
  quiet [ call_add_circle (Vec2 cx cy) r lc; call_add_hatch lh;
          call_set_associative true; call_edit_boundary;
          call_boundary_add_circle (Vec2 cx cy) r;
          call_set_pattern_fill "ANSI31" an sp ] ->
  _add_circle_with_hatch d cx cy r sp an lc lh t
  = (Ok (set_modelspace
           (modelspace d ++
              [ Circle (Build_circle (Vec2 cx cy) r lc);
                Hatch (hatch_over lh (Vec2 cx cy) r an sp) ]) d),
     t ++ [ Event (call_add_circle (Vec2 cx cy) r lc) None;
            Event (call_add_hatch lh) None;
            Event (call_set_associative true) None;
            Event call_edit_boundary None;
            Event (call_boundary_add_circle (Vec2 cx cy) r) None;
            Event (call_set_pattern_fill "ANSI31" an sp) None ]).
Proof.
  intros Hq. split_quiet Hq.
  unfold _add_circle_with_hatch, msp_add_circle, msp_add_hatch,
    hatch_set_associative, hatch_edit_boundary, boundary_add_circle,
    hatch_set_pattern_fill.
  rewrite !bind_libcall_quiet by auto. cbn [fst snd].
  rewrite libcall_quiet by auto.
  rewrite <- !app_assoc. simpl. f_equal. f_equal.
  rewrite hatch_built. unfold set_modelspace, hatch_over. simpl.
  now rewrite <- app_assoc.
Qed.

Lemma generate_run (p : GenerateParams) (d0 : document) (t : trace) :
  ezdxf_new (version p) = inr d0 ->
  quiet (generate_calls p) ->
  generate p t = (generate_outcome d0 p, t ++ generate_trace d0 p).
Proof.
  intros Hnew Hq. unfold generate_calls in Hq. split_quiet Hq.
  unfold generate, _doc_with_units, lib_new, header_setitem.
  unfold bind at 1 2. unfold libcall_outcome at 1. rewrite Hnew.
  rewrite libcall_quiet by auto.
  unfold bind at 1. rewrite make_layers_run
    by (unfold quiet; simpl; repeat constructor; auto).
  unfold bind at 1. rewrite add_circle_with_hatch_run
    by (unfold quiet; repeat constructor; auto).
  unfold doc_saveas, bind, generate_outcome, generate_trace, lift, ret.
  rewrite libcall_logged. simpl layers. simpl modelspace.
  change (set_modelspace _ (set_layers _ (set_header _ _ d0)))
    with (generated_document d0 p).
  rewrite <- !app_assoc. simpl app.
  destruct (write_dxf (generated_document d0 p)) as [e|buf]; [reflexivity|].
  now destruct (int_of_float (angle_deg p)).
Qed.

(** ** The scan for the first circle *)

Lemma first_circle_of_none (es : list entity) :
  first_circle_of es = None <-> no_circle es.
Proof.
  unfold no_circle. induction es as [|e es IH]; simpl.
  - split; [constructor | reflexivity].
  - destruct (String.eqb_spec (dxftype e) "CIRCLE") as [He|He].
    + split; [discriminate|]. intros H. apply Forall_cons in H. now destruct H.
    + rewrite IH. split.
      * intros H. now constructor.
      * intros H. apply Forall_cons in H. now destruct H.
Qed.


Lemma first_circle_of_some (es : list entity) (e : entity) :
  first_circle_of es = Some e ->
  exists pre post, es = pre ++ e :: post /\ no_circle pre /\ dxftype e = "CIRCLE".
Proof.
  unfold no_circle. induction es as [|x es IH]; simpl; [discriminate|].
  destruct (String.eqb_spec (dxftype x) "CIRCLE") as [Hc|Hc].
  - intros [= ->]. exists [], es. split; [reflexivity|]. split; [constructor | exact Hc].
  - intros H. destruct (IH H) as (pre & post & -> & Hpre & He).
    exists (x :: pre), post. split; [reflexivity|]. split; [now constructor | exact He].
Qed.

(** A model space that holds a circle, and no foreign entity that calls
    itself a CIRCLE, splits at its first circle. *)
Lemma first_circle_exists (es : list entity) :
  (exists c, Circle c ∈ es) ->
  (forall kind, Other kind ∈ es -> kind <> "CIRCLE") ->
  exists pre c post, es = pre ++ Circle c :: post /\ no_circle pre.
Proof.
  intros [c0 Hc0] Hother.
  destruct (first_circle_of es) as [e|] eqn:Hfirst.
  - destruct (first_circle_of_some _ _ Hfirst) as (pre & post & -> & Hpre & He).
    destruct e as [c|h|kind]; simpl in He; [|discriminate|].
    + now exists pre, c, post.
    + exfalso. apply (Hother kind); [|exact He].
      apply elem_of_app. right. apply list_elem_of_here.
  - apply first_circle_of_none in Hfirst. unfold no_circle in Hfirst.
    rewrite Forall_forall in Hfirst. now destruct (Hfirst _ Hc0).
Qed.

(** ** Runs of [hatch_on_upload] *)

Lemma modelspace_set_layers (ls : list string) (d : document) :
  modelspace (set_layers ls d) = modelspace d.
Proof. reflexivity. Qed.

Lemma bind_ok {A B} (m : M A) (k : A -> M B) (t t' : trace) (a : A) :
  m t = (Ok a, t') -> bind m k t = k a t'.
Proof. intros H. unfold bind. now rewrite H. Qed.

Lemma read_ok (content : bytes) (d : document) (h : exn -> M document) (t : trace) :
  ezdxf_read content = inr d ->
  try_except (lib_read content) h t = (Ok d, t ++ [Event (call_read content) None]).
Proof. intros H. unfold try_except, lib_read, libcall_outcome. now rewrite H. Qed.

Lemma upload_bad_extension (up : UploadFile) (sp an : PyFloat.float)
    (lay : string) (t : trace) :
  has_dxf_extension (filename up) = false ->
  hatch_on_upload up sp an lay t = (HTTPException 400 "Carica un file .dxf", t).
Proof.
  unfold has_dxf_extension, hatch_on_upload. intros ->. reflexivity.
Qed.

Lemma upload_parse_error (up : UploadFile) (sp an : PyFloat.float)
    (lay : string) (t : trace) (e : exn) :
  has_dxf_extension (filename up) = true ->
  ezdxf_read (file up) = inl e ->
  hatch_on_upload up sp an lay t
  = (HTTPException 400 ("DXF non valido: " +:+ exc_str e),
     t ++ [Event (call_read (file up)) (Some e)]).
Proof.
  unfold has_dxf_extension, hatch_on_upload. intros -> Hread. simpl.
  unfold bind, try_except, lib_read, libcall_outcome. rewrite Hread. reflexivity.
Qed.

Lemma upload_no_circle (up : UploadFile) (sp an : PyFloat.float)
    (lay : string) (t : trace) (d : document) :
  has_dxf_extension (filename up) = true ->
  ezdxf_read (file up) = inr d ->
  lib_raises d (call_layers_new lay) = None ->
  first_circle_of (modelspace d) = None ->
  hatch_on_upload up sp an lay t
  = (HTTPException 400 "Nessun CIRCLE trovato nel DXF caricato.",
     t ++ [Event (call_read (file up)) None] ++ make_layers_events (layers d) [lay]).
Proof.
  unfold has_dxf_extension, hatch_on_upload. intros -> Hread Hlay Hnone.
  change (negb true) with false. cbv beta iota zeta.
  rewrite (bind_ok _ _ _ _ _ (read_ok _ _ _ _ Hread)).
  erewrite bind_ok by (apply make_layers_one; exact Hlay).
  rewrite modelspace_set_layers, Hnone. unfold raise_http.
  now rewrite <- app_assoc.
Qed.


(** ** Programs that let exceptions through *)

Lemma propagates_ret {A} (a : A) : propagates (ret a).
Proof.
  intros t. exists []. simpl. rewrite app_nil_r. split; [reflexivity|].
  split; [|discriminate]. intros ev e H. now apply elem_of_nil in H.
Qed.

Lemma propagates_lift {A} (o : outcome A) :
  (forall s d, o <> HTTPException s d) -> propagates (lift o).
Proof.
  intros Ho t. exists []. simpl. rewrite app_nil_r. split; [reflexivity|].
  split; [|exact Ho]. intros ev e H. now apply elem_of_nil in H.
Qed.

Lemma propagates_libcall {A} (c : libcall) (r : exn + A) :
  propagates (libcall_outcome c r).
Proof.
  intros t. exists [logged c r]. rewrite libcall_logged. simpl.
  split; [reflexivity|]. split.
  - intros ev e H Hev. apply list_elem_of_singleton in H. subst ev.
    destruct r as [e'|a]; simpl in Hev; [now injection Hev as -> | discriminate].
  - now destruct r.
Qed.

Lemma propagates_bind {A B} (m : M A) (k : A -> M B) :
  propagates m -> (forall a, propagates (k a)) -> propagates (bind m k).
Proof.
  intros Hm Hk t. destruct (Hm t) as (evs1 & Ht1 & Hraise1 & Hhttp1).
  unfold bind. destruct (m t) as [[a|s d|e] t1] eqn:Hmt; simpl in *.
  - destruct (Hk a t1) as (evs2 & Ht2 & Hraise2 & Hhttp2).
    exists (evs1 ++ evs2). subst t1. rewrite Ht2, app_assoc.
    split; [reflexivity|]. split; [|exact Hhttp2].
    intros ev e Hin Hev. apply elem_of_app in Hin. destruct Hin as [Hin|Hin].
    + now specialize (Hraise1 ev e Hin Hev).
    + now apply (Hraise2 ev e).
  - now destruct (Hhttp1 s d).
  - exists evs1. simpl. split; [exact Ht1|]. split; [|discriminate].
    intros ev e' Hin Hev. specialize (Hraise1 ev e' Hin Hev). congruence.
Qed.

Lemma propagates_make_layers (names : list string) (d : document) :
  propagates (_make_layers d names).
Proof.
  revert d. induction names as [|n names IH]; intros d; simpl.
  - apply propagates_ret.
  - apply propagates_bind; [|exact IH].
    destruct (negb (layers_contains d n));
      [apply propagates_libcall | apply propagates_ret].
Qed.

Lemma int_of_float_no_http (x : PyFloat.float) (s : Z) (d : string) :
  int_of_float x <> HTTPException s d.
Proof. now destruct x. Qed.

Lemma propagates_generate (p : GenerateParams) : propagates (generate p).
Proof.
  unfold generate, _doc_with_units, _add_circle_with_hatch, lib_new,
    header_setitem, msp_add_circle, msp_add_hatch, hatch_set_associative,
    hatch_edit_boundary, boundary_add_circle, hatch_set_pattern_fill, doc_saveas.
  repeat first
    [ apply propagates_make_layers
    | apply propagates_libcall
    | apply propagates_ret
    | apply propagates_lift, int_of_float_no_http
    | apply propagates_bind; [|intros ?] ].
Qed.

(** ** File names *)

Lemma append_nil_l (b : string) : EmptyString +:+ b = b.
Proof. reflexivity. Qed.

Lemma append_cons (c : ascii) (a b : string) :
  String c a +:+ b = String c (a +:+ b).
Proof. reflexivity. Qed.

Lemma append_nil_r (s : string) : s +:+ EmptyString = s.
Proof.
  induction s as [|c s IH]; [reflexivity|]. now rewrite append_cons, IH.
Qed.

Lemma lower_append (a b : string) :
  PyStr.lower (a +:+ b) = PyStr.lower a +:+ PyStr.lower b.
Proof.
  induction a as [|x a IH]; [reflexivity|].
  rewrite append_cons. simpl. now rewrite IH, append_cons.
Qed.

Lemma endswith_spec (s suffix : string) :
  PyStr.endswith s suffix = true <-> exists base, s = base +:+ suffix.
Proof.
  induction s as [|c s IH]; cbn -[String.eqb].
  - destruct (String.eqb_spec EmptyString suffix) as [<-|Hne].
    + split; [|reflexivity]. intros _. now exists EmptyString.
    + split; [discriminate|].
      intros [[|x base] H]; [now rewrite append_nil_l in H | now rewrite append_cons in H].
  - destruct (String.eqb_spec (String c s) suffix) as [<-|Hne].
    + split; [|reflexivity]. intros _. now exists EmptyString.
    + rewrite IH. split.
      * intros [base ->]. now exists (String c base).
      * intros [[|x base] H]; [now rewrite append_nil_l in H|].
        rewrite append_cons in H. injection H as -> ->. now exists base.
Qed.

(** Splitting a string where its lower-cased form splits. *)
Lemma lower_split (s a b : string) :
  PyStr.lower s = a +:+ b ->
  exists s1 s2, s = s1 +:+ s2 /\ PyStr.lower s1 = a /\ PyStr.lower s2 = b.
Proof.
  revert s. induction a as [|x a IH]; intros s H.
  - exists EmptyString, s. now split.
  - rewrite append_cons in H. destruct s as [|c s]; simpl in H; [discriminate|].
    injection H as Hx H. destruct (IH s H) as (s1 & s2 & -> & H1 & H2).
    exists (String c s1), s2. split; [reflexivity|]. split; [|exact H2].
    simpl. now rewrite Hx, H1.
Qed.

(** The extension check accepts exactly the names that end, up to case,
    in [.dxf]. *)
Lemma has_dxf_extension_spec (name : string) :
  has_dxf_extension name = true
  <-> exists base ext, name = base +:+ ext /\ PyStr.lower ext = ".dxf".
Proof.
  unfold has_dxf_extension. rewrite endswith_spec. split.
  - intros [b Hb]. destruct (lower_split _ _ _ Hb) as (s1 & s2 & -> & _ & H2).
    now exists s1, s2.
  - intros (base & ext & -> & Hext). exists (PyStr.lower base).
    now rewrite lower_append, Hext.
Qed.

Lemma prefix_append (sep rest : string) : String.prefix sep (sep +:+ rest) = true.
Proof.
  induction sep as [|c sep IH]; [now destruct rest|].
  rewrite append_cons. simpl. now destruct (ascii_dec c c).
Qed.

Lemma prefix_length (sep s : string) :
  String.prefix sep s = true -> (String.length sep <= String.length s)%nat.
Proof.
  revert s. induction sep as [|c sep IH]; intros s H; simpl; [lia|].
  destruct s as [|x s]; simpl in H; [discriminate|].
  destruct (ascii_dec c x); [|discriminate]. specialize (IH s H). simpl. lia.
Qed.

Lemma rfind_bounds (sep s : string) (i : nat) :
  PyStr.rfind sep s = Some i -> (i + String.length sep <= String.length s)%nat.
Proof.
  revert i. induction s as [|c s IH]; intros i; cbn -[String.prefix].
  - destruct (String.prefix sep EmptyString) eqn:Hp; [|discriminate].
    intros [= <-]. apply prefix_length in Hp. simpl in *. lia.
  - destruct (PyStr.rfind sep s) as [j|].
    + intros [= <-]. specialize (IH j eq_refl). lia.
    + destruct (String.prefix sep (String c s)) eqn:Hp; [|discriminate].
      intros [= <-]. apply prefix_length in Hp. simpl in *. lia.
Qed.

Lemma prefix_refl (s : string) : String.prefix s s = true.
Proof.
  generalize (prefix_append s EmptyString). now rewrite append_nil_r.
Qed.

Lemma rfind_self (sep : string) :
  sep <> EmptyString -> PyStr.rfind sep sep = Some 0%nat.
Proof.
  intros Hsep. destruct sep as [|x sep]; [easy|]. cbn -[String.prefix].
  destruct (PyStr.rfind (String x sep) sep) as [j|] eqn:Hj.
  - apply rfind_bounds in Hj. simpl in Hj. lia.
  - now rewrite prefix_refl.
Qed.

(** A separator at the very end of the string is the rightmost one. *)
Lemma rfind_suffix (sep base : string) :
  sep <> EmptyString ->
  PyStr.rfind sep (base +:+ sep) = Some (String.length base).
Proof.
  intros Hsep. induction base as [|c base IH].
  - rewrite append_nil_l. now apply rfind_self.
  - rewrite append_cons. cbn -[String.prefix]. now rewrite IH.
Qed.

Lemma substring_prefix (a b : string) : substring 0 (String.length a) (a +:+ b) = a.
Proof.
  induction a as [|c a IH]; [now destruct b|].
  rewrite append_cons. simpl. now rewrite IH.
Qed.

(** For a name that ends in lower-case [.dxf], the split gives the base. *)
Lemma rsplit1_lower_case (base : string) :
  PyStr.item0 (PyStr.rsplit1 ".dxf" (base +:+ ".dxf")) = base.
Proof.
  unfold PyStr.rsplit1. rewrite rfind_suffix by discriminate.
  simpl PyStr.item0. apply substring_prefix.
Qed.

(** The rightmost occurrence found by [rfind] is an occurrence. *)
Lemma prefix_split (sep s : string) :
  String.prefix sep s = true -> exists b, s = sep +:+ b.
Proof.
  revert s. induction sep as [|c sep IH]; intros s H.
  - now exists s.
  - destruct s as [|x s]; simpl in H; [discriminate|].
    destruct (ascii_dec c x) as [->|]; [|discriminate].
    destruct (IH s H) as [b ->]. now exists b.
Qed.

Lemma rfind_sound (sep s : string) (i : nat) :
  PyStr.rfind sep s = Some i ->
  exists a b, s = a +:+ sep +:+ b /\ String.length a = i.
Proof.
  revert i. induction s as [|c s IH]; intros i; cbn -[String.prefix].
  - destruct (String.prefix sep EmptyString) eqn:Hp; [|discriminate].
    intros [= <-]. destruct (prefix_split _ _ Hp) as [b Hb].
    now exists EmptyString, b.
  - destruct (PyStr.rfind sep s) as [j|].
    + intros [= <-]. destruct (IH j eq_refl) as (a & b & -> & Ha).
      exists (String c a), b. split; [reflexivity | simpl; now rewrite Ha].
    + destruct (String.prefix sep (String c s)) eqn:Hp; [|discriminate].
      intros [= <-]. destruct (prefix_split _ _ Hp) as [b Hb].
      now exists EmptyString, b.
Qed.

Lemma length_append (a b : string) :
  String.length (a +:+ b) = (String.length a + String.length b)%nat.
Proof.
  induction a as [|x a IH]; [reflexivity|].
  rewrite append_cons. simpl. now rewrite IH.
Qed.

Lemma lower_length (s : string) : String.length (PyStr.lower s) = String.length s.
Proof. induction s as [|c s IH]; simpl; [reflexivity | now rewrite IH]. Qed.

Lemma append_inv_l (a b c : string) : a +:+ b = a +:+ c -> b = c.
Proof.
  induction a as [|x a IH]; [easy|].
  rewrite !append_cons. intros [= H]. now apply IH.
Qed.

Lemma length_zero (s : string) : String.length s = 0%nat -> s = EmptyString.
Proof. now destruct s. Qed.

(** For a name whose extension is [.dxf] in any other case, the split does
    not give the base. *)
Lemma rsplit1_other_case (base ext : string) :
  PyStr.lower ext = ".dxf" -> ext <> ".dxf" ->
  PyStr.item0 (PyStr.rsplit1 ".dxf" (base +:+ ext)) <> base.
Proof.
  intros Hlow Hne. assert (Hlen : String.length ext = 4%nat).
  { now rewrite <- lower_length, Hlow. }
  unfold PyStr.rsplit1.
  destruct (PyStr.rfind ".dxf" (base +:+ ext)) as [i|] eqn:Hr; simpl PyStr.item0.
  - destruct (rfind_sound _ _ _ Hr) as (a & b & Heq & Ha).
    rewrite Heq at 1. rewrite <- Ha, substring_prefix. intros ->.
    apply append_inv_l in Heq. apply Hne. rewrite Heq.
    assert (Hb : String.length b = 0%nat).
    { rewrite Heq, length_append in Hlen. simpl in Hlen. lia. }
    rewrite (length_zero _ Hb). reflexivity.
  - intros H. assert (Hl := f_equal String.length H).
    rewrite length_append in Hl. lia.
Qed.

(** ** Taking runs apart *)

Lemma bind_ok_inv {A B} (m : M A) (k : A -> M B) (t t' : trace) (b : B) :
  bind m k t = (Ok b, t') ->
  exists a t1, m t = (Ok a, t1) /\ k a t1 = (Ok b, t').
Proof.
  unfold bind. destruct (m t) as [[a|s d|e] t1]; [|discriminate..].
  intros H. now exists a, t1.
Qed.

Lemma bind_http_inv {A B} (m : M A) (k : A -> M B) (t : trace) (s : Z) (d : string) :
  fst (bind m k t) = HTTPException s d ->
  fst (m t) = HTTPException s d
  \/ exists a t1, m t = (Ok a, t1) /\ fst (k a t1) = HTTPException s d.
Proof.
  unfold bind. destruct (m t) as [[a|s' d'|e] t1]; simpl.
  - intros H. right. now exists a, t1.
  - intros [= -> ->]. now left.
  - discriminate.
Qed.

Lemma make_layers_ok_modelspace (names : list string) (d d' : document) (t t' : trace) :
  _make_layers d names t = (Ok d', t') -> modelspace d' = modelspace d.
Proof.
  revert d t. induction names as [|n names IH]; intros d t; simpl.
  - now intros [= -> _].
  - intros H. apply bind_ok_inv in H. destruct H as (d1 & t1 & H1 & H2).
    rewrite (IH _ _ H2). destruct (negb (layers_contains d n)).
    + unfold layers_new in H1. rewrite libcall_logged in H1.
      destruct (layers_contains d n); [discriminate|].
      unfold guarded in H1. destruct (lib_raises d (call_layers_new n)); [discriminate|].
      now injection H1 as <- _.
    + now injection H1 as <- _.
Qed.

(** Once a circle has been found, the rest of [hatch_on_upload] lets
    exceptions through. *)
Lemma propagates_upload_tail (d : document) (first_circle : entity)
    (sp an : PyFloat.float) (lay name : string) :
  propagates
    (h <- msp_add_hatch d lay ;;
     doc <- hatch_set_associative (fst h) (snd h) true ;;
     ed <- hatch_edit_boundary doc (snd h) ;;
     center <- lift (dxf_center first_circle) ;;
     r <- lift (dxf_radius first_circle) ;;
     doc <- boundary_add_circle doc ed center r ;;
     doc <- hatch_set_pattern_fill doc (snd h) "ANSI31" an sp ;;
     buf <- doc_saveas doc ;;
     ret (dxf_response buf (name +:+ "_HATCHED.dxf"))).
Proof.
  unfold msp_add_hatch, hatch_set_associative, hatch_edit_boundary,
    boundary_add_circle, hatch_set_pattern_fill, doc_saveas.
  repeat first
    [ apply propagates_libcall
    | apply propagates_ret
    | apply propagates_lift; now destruct first_circle
    | apply propagates_bind; [|intros ?] ].
Qed.

(** Every [HTTPException] of [hatch_on_upload] is one of its three
    rejections. *)
Lemma upload_http_inv (up : UploadFile) (sp an : PyFloat.float) (lay : string)
    (t : trace) (s : Z) (detail : string) :
  fst (hatch_on_upload up sp an lay t) = HTTPException s detail ->
  s = 400 /\
  (has_dxf_extension (filename up) = false
   \/ (exists e, ezdxf_read (file up) = inl e)
   \/ (exists d, ezdxf_read (file up) = inr d /\ no_circle (modelspace d))).
Proof.
  unfold hatch_on_upload. fold (has_dxf_extension (filename up)).
  destruct (has_dxf_extension (filename up)) eqn:Hext; cbn [negb]; cbv beta iota zeta.
  - destruct (ezdxf_read (file up)) as [e|d] eqn:Hread.
    + unfold bind, try_except, lib_read, libcall_outcome. rewrite Hread. simpl.
      intros [= <- _]. split; [reflexivity|]. right. left. now exists e.
    + rewrite (bind_ok _ _ _ _ _ (read_ok _ _ _ _ Hread)).
      intros H. apply bind_http_inv in H. destruct H as [H|(d1 & t1 & H1 & H)].
      * destruct (propagates_make_layers [lay] d (t ++ [Event (call_read (file up)) None]))
          as (evs & _ & _ & Hno). now destruct (Hno s detail).
      * apply make_layers_ok_modelspace in H1.
        destruct (first_circle_of (modelspace d1)) as [e|] eqn:Hfirst.
        -- destruct (propagates_upload_tail d1 e sp an lay
                       (PyStr.item0 (PyStr.rsplit1 ".dxf" (filename up))) t1)
             as (evs & _ & _ & Hno). now destruct (Hno s detail).
        -- unfold raise_http in H. simpl in H. injection H as <- _.
           split; [reflexivity|]. right. right. exists d. split; [reflexivity|].
           rewrite <- H1. now apply first_circle_of_none.
  - unfold raise_http. simpl. intros [= <- _]. split; [reflexivity|]. now left.
Qed.

(** Every response of [hatch_on_upload] carries the name built from the
    upload's name. *)
Lemma upload_ok_inv (up : UploadFile) (sp an : PyFloat.float) (lay : string)
    (t t' : trace) (resp : StreamingResponse) :
  hatch_on_upload up sp an lay t = (Ok resp, t') ->
  has_dxf_extension (filename up) = true /\
  exists buf,
    resp = dxf_response buf
             (PyStr.item0 (PyStr.rsplit1 ".dxf" (filename up)) +:+ "_HATCHED.dxf").
Proof.
  unfold hatch_on_upload. fold (has_dxf_extension (filename up)).
  destruct (has_dxf_extension (filename up)); cbn [negb]; cbv beta iota zeta;
    [|discriminate].
  intros H. split; [reflexivity|].
  apply bind_ok_inv in H. destruct H as (d & t1 & _ & H).
  apply bind_ok_inv in H. destruct H as (d1 & t2 & _ & H).
  destruct (first_circle_of (modelspace d1)) as [e|]; [|discriminate].
  repeat (apply bind_ok_inv in H; destruct H as (? & ? & _ & H)).
  unfold ret in H. injection H as <- _. now eexists.
Qed.

(** For an upload whose name ends in lower-case [.dxf], every response is
    named [<base>_HATCHED.dxf]. *)
Lemma upload_name_lower_case_stripped (up : UploadFile) (sp an : PyFloat.float)
    (lay : string) (t t' : trace) (resp : StreamingResponse) (base : string) :
  filename up = base +:+ ".dxf" ->
  hatch_on_upload up sp an lay t = (Ok resp, t') ->
  headers resp
  = [("Content-Disposition", content_disposition (base +:+ "_HATCHED.dxf"))].
Proof.
  intros Hname Hrun.
  destruct (upload_ok_inv _ _ _ _ _ _ _ Hrun) as (_ & buf & ->).
  now rewrite Hname, rsplit1_lower_case.
Qed.

(** Every response of [generate] is named after the written spacing and
    the integer [int(angle_deg)], which therefore exists. *)
Lemma generate_ok_inv (p : GenerateParams) (t t' : trace) (resp : StreamingResponse) :
  generate p t = (Ok resp, t') ->
  exists buf n,
    int_of_float (angle_deg p) = Ok n /\
    resp = dxf_response buf
             ("circle_hatch_" +:+ PyFloat.repr (spacing p) +:+ "mm_"
              +:+ PyStr.str_of_int n +:+ "deg.dxf").
Proof.
  unfold generate. intros H.
  do 4 (apply bind_ok_inv in H; destruct H as (? & ? & _ & H)).
  apply bind_ok_inv in H. destruct H as (n & t1 & Hn & H).
  unfold lift in Hn. injection Hn as Hn _.
  unfold ret in H. injection H as <- _. now eexists _, n.
Qed.

Lemma int_of_float_finite (x : PyFloat.float) :
  PyFloat.is_finite x = true -> int_of_float x = Ok (PyFloat.trunc x).
Proof. now destruct x. Qed.

Lemma int_of_float_ok (x : PyFloat.float) (n : Z) :
  int_of_float x = Ok n -> PyFloat.is_finite x = true /\ n = PyFloat.trunc x.
Proof. destruct x; simpl; intros [= <-] || discriminate; now split. Qed.


Lemma trunc_integral (s : bool) (m : positive) (e : Z) :
  0 <= e ->
  PyFloat.trunc (S754_finite s m e) = (if s then Z.neg m else Z.pos m) * 2 ^ e.
Proof.
  intros He. simpl. rewrite Z.shiftl_mul_pow2 by lia. destruct s; lia.
Qed.


Lemma make_layers_events_calls (names ls : list string) (ev : event) :
  ev ∈ make_layers_events ls names ->
  exists n, ev = Event (call_layers_new n) None.
Proof.
  revert ls. induction names as [|n names IH]; intros ls H; simpl in H.
  - now apply elem_of_nil in H.
  - apply elem_of_app in H. destruct H as [H|H]; [|now apply (IH _ H)].
    case_bool_decide; [now apply elem_of_nil in H|].
    apply list_elem_of_singleton in H. now exists n.
Qed.


(** ** The hatch layer of an upload *)

Lemma make_layers_one_ready (name : string) (d : document) (t : trace) :
  layer_ready d name ->
  _make_layers d [name] t
  = (Ok (set_layers (ensure_layer (layers d) name) d),
     t ++ make_layers_events (layers d) [name]).
Proof.
  intros [Hin|Hn]; [|now apply make_layers_one].
  rewrite make_layers_noop.
  - cbn [make_layers_events]. rewrite ensure_layer_present by exact Hin.
    rewrite bool_decide_eq_true_2 by exact Hin.
    now rewrite set_layers_same, !app_nil_r.
  - intros n Hn. apply list_elem_of_singleton in Hn. now subst n.
Qed.

Lemma make_layers_one_ok_inv (name : string) (d d1 : document) (t t1 : trace) :
  _make_layers d [name] t = (Ok d1, t1) -> layer_ready d name.
Proof.
  cbn [_make_layers]. intros H.
  apply bind_ok_inv in H. destruct H as (d2 & t2 & H & _).
  unfold layers_contains in H. case_bool_decide as Hin; [now left|].
  right. cbn [negb] in H. unfold layers_new, layers_contains in H.
  rewrite bool_decide_eq_false_2 in H by exact Hin.
  unfold libcall_outcome, guarded in H.
  now destruct (lib_raises d (call_layers_new name)).
Qed.

Lemma upload_no_circle_ready (up : UploadFile) (sp an : PyFloat.float)
    (lay : string) (t : trace) (d : document) :
  has_dxf_extension (filename up) = true ->
  ezdxf_read (file up) = inr d ->
  layer_ready d lay ->
  first_circle_of (modelspace d) = None ->
  hatch_on_upload up sp an lay t
  = (HTTPException 400 "Nessun CIRCLE trovato nel DXF caricato.",
     t ++ [Event (call_read (file up)) None] ++ make_layers_events (layers d) [lay]).
Proof.
  unfold has_dxf_extension, hatch_on_upload. intros -> Hread Hlay Hnone.
  change (negb true) with false. cbv beta iota zeta.
  rewrite (bind_ok _ _ _ _ _ (read_ok _ _ _ _ Hread)).
  erewrite bind_ok by (apply make_layers_one_ready; exact Hlay).
  rewrite modelspace_set_layers, Hnone. unfold raise_http.
  now rewrite <- app_assoc.
Qed.

(** Every [HTTPException] of [hatch_on_upload] is one of its three
    rejections, and the last of them is reached with the layer in place. *)
Lemma upload_http_inv_ready (up : UploadFile) (sp an : PyFloat.float) (lay : string)
    (t : trace) (s : Z) (detail : string) :
  fst (hatch_on_upload up sp an lay t) = HTTPException s detail ->
  s = 400 /\
  (has_dxf_extension (filename up) = false
   \/ (exists e, ezdxf_read (file up) = inl e)
   \/ (exists d, ezdxf_read (file up) = inr d /\ layer_ready d lay
                  /\ no_circle (modelspace d))).
Proof.
  intros H. destruct (upload_http_inv _ _ _ _ _ _ _ H) as [Hs Hcase].
  split; [exact Hs|]. destruct Hcase as [Hc|[Hc|(d & Hread & Hnone)]];
    [now left | now right; left |].
  destruct (has_dxf_extension (filename up)) eqn:Hext; [|now left].
  right. right. exists d. split; [exact Hread|]. split; [|exact Hnone].
  revert H. unfold hatch_on_upload. fold (has_dxf_extension (filename up)).
  rewrite Hext. change (negb true) with false. cbv beta iota zeta.
  rewrite (bind_ok _ _ _ _ _ (read_ok _ _ _ _ Hread)). intros H.
  apply bind_http_inv in H. destruct H as [H|(d1 & t1 & H1 & _)].
  - destruct (propagates_make_layers [lay] d (t ++ [Event (call_read (file up)) None]))
      as (evs & _ & _ & Hno). now destruct (Hno s detail).
  - exact (make_layers_one_ok_inv _ _ _ _ _ H1).
Qed.

(** ** The claims *)

(** C1 (the code departs from the claim).  [hatch_on_upload] accepts a name
    whose extension is [.dxf] in any mix of cases, but strips the extension
    with a case-sensitive split.  For an accepted name [base ++ ext] whose
    [ext] is not the lower-case [.dxf], every response is named from the
    first piece of that split, and this piece is not [base]: the response
    is not named [<base>_HATCHED.dxf]. *)
Theorem upload_name_other_case_not_stripped (up : UploadFile) (sp an : PyFloat.float)
    (lay : string) (t t' : trace) (resp : StreamingResponse) (base ext : string) :
  filename up = base +:+ ext ->
  PyStr.lower ext = ".dxf" ->
  ext <> ".dxf" ->
  hatch_on_upload up sp an lay t = (Ok resp, t') ->
  has_dxf_extension (filename up) = true
  /\ headers resp
     = [("Content-Disposition",
         content_disposition
           (PyStr.item0 (PyStr.rsplit1 ".dxf" (filename up)) +:+ "_HATCHED.dxf"))]
  /\ PyStr.item0 (PyStr.rsplit1 ".dxf" (filename up)) <> base.
Proof.
  intros Hname Hlow Hne Hrun.
  destruct (upload_ok_inv _ _ _ _ _ _ _ Hrun) as (Hext & buf & ->).
  split; [exact Hext|]. split; [reflexivity|].
  rewrite Hname. now apply rsplit1_other_case.
Qed.


(** C3 (amended).  For a valid request whose [angle_deg] is finite, every
    response of [generate] carries the Content-Disposition file name
    [circle_hatch_<spacing>mm_<angle>deg.dxf], where [<spacing>] is the
    spacing as Python writes it (the shortest decimal that reads back as
    the value supplied) and [<angle>] the angle truncated toward zero; and
    [generate] does respond, with that name, whenever the library calls
    succeed. *)
Theorem generate_filename (p : GenerateParams) :
  valid_params p = true ->
  PyFloat.is_finite (angle_deg p) = true ->
  (forall t t' resp,
      generate p t = (Ok resp, t') ->
      headers resp
      = [("Content-Disposition",
          content_disposition
            ("circle_hatch_" +:+ PyFloat.repr (spacing p) +:+ "mm_"
             +:+ PyStr.str_of_int (PyFloat.trunc (angle_deg p)) +:+ "deg.dxf"))])
  /\ (forall d0 buf t,
         ezdxf_new (version p) = inr d0 ->
         quiet (generate_calls p) ->
         write_dxf (generated_document d0 p) = inr buf ->
         fst (generate p t)
         = Ok (dxf_response buf
                 ("circle_hatch_" +:+ PyFloat.repr (spacing p) +:+ "mm_"
                  +:+ PyStr.str_of_int (PyFloat.trunc (angle_deg p)) +:+ "deg.dxf"))).
Proof.
  intros _ Hfin. split.
  - intros t t' resp Hrun.
    destruct (generate_ok_inv _ _ _ _ Hrun) as (buf & n & Hn & ->).
    apply int_of_float_ok in Hn. destruct Hn as [_ ->]. reflexivity.
  - intros d0 buf t Hnew Hq Hw. rewrite (generate_run p d0 t Hnew Hq). simpl.
    unfold generate_outcome. now rewrite Hw, int_of_float_finite.
Qed.


(** C5.  An upload whose name does not end, up to case, in [.dxf] is
    answered with HTTP 400 and the log is left as it was: no library call
    has been made, so nothing was parsed and no document exists. *)
Theorem upload_rejects_bad_extension (up : UploadFile) (sp an : PyFloat.float)
    (lay : string) (t : trace) :
  ~ (exists base ext, filename up = base +:+ ext /\ PyStr.lower ext = ".dxf") ->
  hatch_on_upload up sp an lay t = (HTTPException 400 "Carica un file .dxf", t).
Proof.
  intros Hno. apply upload_bad_extension.
  destruct (has_dxf_extension (filename up)) eqn:Hext; [|reflexivity].
  exfalso. apply Hno. now apply has_dxf_extension_spec.
Qed.

(** C6.  An upload whose name passes the extension check but whose bytes
    the parser refuses with exception [e] is answered with HTTP 400, and
    the detail is [DXF non valido: ] followed by the parser's message. *)
Theorem upload_rejects_unparsable (up : UploadFile) (sp an : PyFloat.float)
    (lay : string) (t : trace) (e : exn) :
  has_dxf_extension (filename up) = true ->
  ezdxf_read (file up) = inl e ->
  hatch_on_upload up sp an lay t
  = (HTTPException 400 ("DXF non valido: " +:+ exc_str e),
     t ++ [Event (call_read (file up)) (Some e)]).
Proof. apply upload_parse_error. Qed.

(** C7 (amended).  An upload that parses into a document without any
    CIRCLE entity, and on which the hatch layer is present already or is
    created without failure, is answered with HTTP 400 and the message
    that no circle was found; nothing was serialized. *)
Theorem upload_rejects_no_circle (up : UploadFile) (sp an : PyFloat.float)
    (lay : string) (t : trace) (d : document) :
  has_dxf_extension (filename up) = true ->
  ezdxf_read (file up) = inr d ->
  no_circle (modelspace d) ->
  layer_ready d lay ->
  hatch_on_upload up sp an lay t
  = (HTTPException 400 "Nessun CIRCLE trovato nel DXF caricato.",
     t ++ [Event (call_read (file up)) None] ++ make_layers_events (layers d) [lay])
  /\ forall ev doc,
       ev ∈ [Event (call_read (file up)) None] ++ make_layers_events (layers d) [lay] ->
       ev_call ev <> call_saveas doc.
Proof.
  intros Hext Hread Hnone Hlay. split.
  - apply upload_no_circle_ready; try assumption. now apply first_circle_of_none.
  - intros ev doc H. apply elem_of_app in H. destruct H as [H|H].
    + apply list_elem_of_singleton in H. now subst ev.
    + apply make_layers_events_calls in H. destruct H as [n ->]. discriminate.
Qed.

(** C8.  [generate] catches nothing.  It never raises an [HTTPException];
    whenever a library call it made raised an exception (building the
    document, creating a layer, adding the circle or the hatch,
    serializing), that exception is its outcome; in particular a failing
    [ezdxf.new] and a failing serializer come out unhandled.  The upload
    path, in contrast, turns a failing parse into HTTP 400. *)
Theorem generate_catches_nothing (p : GenerateParams) (t : trace) :
  (forall s d, fst (generate p t) <> HTTPException s d)
  /\ (exists evs,
        snd (generate p t) = t ++ evs
        /\ forall ev e, ev ∈ evs -> ev_raised ev = Some e ->
             fst (generate p t) = Unhandled e)
  /\ (forall e, ezdxf_new (version p) = inl e -> fst (generate p t) = Unhandled e)
  /\ (forall d0 e,
        ezdxf_new (version p) = inr d0 ->
        quiet (generate_calls p) ->
        write_dxf (generated_document d0 p) = inl e ->
        fst (generate p t) = Unhandled e)
  /\ (forall up sp an lay e,
        has_dxf_extension (filename up) = true ->
        ezdxf_read (file up) = inl e ->
        fst (hatch_on_upload up sp an lay t)
        = HTTPException 400 ("DXF non valido: " +:+ exc_str e)).
Proof.
  destruct (propagates_generate p t) as (evs & Hevs & Hraise & Hhttp).
  split; [exact Hhttp|]. split; [now exists evs|]. split; [|split].
  - intros e Hnew. unfold generate, _doc_with_units, lib_new, bind, libcall_outcome.
    now rewrite Hnew.
  - intros d0 e Hnew Hq Hw. rewrite (generate_run p d0 t Hnew Hq). simpl.
    unfold generate_outcome. now rewrite Hw.
  - intros up sp an lay e Hext Hread.
    now rewrite (upload_parse_error up sp an lay t e Hext Hread).
Qed.


(** C10 (amended).  Whatever the spacing and the angle (zero and negative
    values included), [hatch_on_upload] raises HTTP 400 exactly when the
    extension check fails, the parse fails, or the parsed document, with
    its hatch layer in place, has no CIRCLE; it raises no other
    [HTTPException]; a rejection stays the same rejection under any other
    spacing and angle.  The schema of [generate], in contrast, asks for
    a positive spacing. *)
Theorem upload_rejections_ignore_spacing_and_angle (up : UploadFile)
    (sp an : PyFloat.float) (lay : string) (t : trace) :
  ((exists detail, fst (hatch_on_upload up sp an lay t) = HTTPException 400 detail)
   <-> (has_dxf_extension (filename up) = false
        \/ (exists e, ezdxf_read (file up) = inl e)
        \/ (exists d, ezdxf_read (file up) = inr d /\ layer_ready d lay
                       /\ no_circle (modelspace d))))
  /\ (forall s detail,
        fst (hatch_on_upload up sp an lay t) = HTTPException s detail -> s = 400)
  /\ (forall sp' an' s detail,
        fst (hatch_on_upload up sp an lay t) = HTTPException s detail ->
        fst (hatch_on_upload up sp' an' lay t) = HTTPException s detail)
  /\ (forall p, valid_params p = true -> PyFloat.gt0 (spacing p) = true).
Proof.
  assert (Hrej :
             (has_dxf_extension (filename up) = false
              \/ (exists e, ezdxf_read (file up) = inl e)
              \/ (exists d, ezdxf_read (file up) = inr d /\ layer_ready d lay
                             /\ no_circle (modelspace d))) ->
             exists detail,
               forall sp1 an1,
                 fst (hatch_on_upload up sp1 an1 lay t) = HTTPException 400 detail).
  { intros H.
    destruct (has_dxf_extension (filename up)) eqn:Hext.
    - destruct H as [H|[[e He]|(d & Hd & Hlay & Hnone)]]; [discriminate| |].
      + eexists. intros sp1 an1.
        now rewrite (upload_parse_error up sp1 an1 lay t e Hext He).
      + eexists. intros sp1 an1.
        apply first_circle_of_none in Hnone.
        now rewrite (upload_no_circle_ready up sp1 an1 lay t d Hext Hd Hlay Hnone).
    - eexists. intros sp1 an1.
      now rewrite (upload_bad_extension up sp1 an1 lay t Hext). }
  split; [|split; [|split]].
  - split.
    + intros [detail H]. now apply upload_http_inv_ready in H.
    + intros H. destruct (Hrej H) as [detail Hd]. now exists detail.
  - intros s detail H. now apply upload_http_inv_ready in H.
  - intros sp' an' s detail H.
    destruct (upload_http_inv_ready _ _ _ _ _ _ _ H) as [-> Hcase].
    destruct (Hrej Hcase) as [detail' Hd].
    rewrite Hd in H. injection H as ->. apply Hd.
  - intros p Hp. unfold valid_params in Hp.
    now apply andb_true_iff in Hp.
Qed.

(** ** Further properties of the handlers *)

Lemma libcall_ok_inv {A} (d : document) (c : libcall) (a x : A) (t t' : trace) :
  libcall_outcome c (guarded d c a) t = (Ok x, t') ->
  x = a /\ t' = t ++ [Event c None] /\ lib_raises d c = None.
Proof.
  unfold libcall_outcome, guarded. destruct (lib_raises d c); [discriminate|].
  intros [= <- <-]. now repeat split.
Qed.

(** *** [_make_layers] only appends *)

(** X1.  Whenever [_make_layers] returns, the header and the model space
    are untouched and the layer table is the old one followed by the
    layers added; each added layer was asked for and was missing, the log
    has gained exactly one [layers.new] entry per added layer, in order,
    and every name asked for is now in the table. *)
Theorem make_layers_only_appends (names : list string) (d d' : document)
    (t t' : trace) :
  _make_layers d names t = (Ok d', t') ->
  header d' = header d
  /\ modelspace d' = modelspace d
  /\ exists added,
       layers d' = layers d ++ added
       /\ t' = t ++ map (fun n => Event (call_layers_new n) None) added
       /\ (forall n, n ∈ added ->
             n ∈ names /\ layer_key n ∉ layer_key <$> layers d)
       /\ (forall n, n ∈ names -> layer_key n ∈ layer_key <$> layers d').
Proof.
  revert d t. induction names as [|n names IH]; intros d t; simpl.
  - intros [= <- <-]. split; [reflexivity|]. split; [reflexivity|].
    exists []. rewrite !app_nil_r. split; [reflexivity|]. split; [reflexivity|].
    split; intros n H; now apply elem_of_nil in H.
  - intros H. apply bind_ok_inv in H. destruct H as (d1 & t1 & H1 & H2).
    destruct (IH _ _ H2) as (Hh & Hm & added & Hl & Ht & Hadd & Hall).
    unfold layers_contains in H1. case_bool_decide as Hin; simpl in H1.
    + injection H1 as <- <-.
      split; [exact Hh|]. split; [exact Hm|]. exists added.
      split; [exact Hl|]. split; [exact Ht|]. split.
      * intros m Hmem. destruct (Hadd m Hmem) as [Hn Hk].
        split; [now apply list_elem_of_further | exact Hk].
      * intros m Hmem. apply elem_of_cons in Hmem. destruct Hmem as [->|Hmem].
        -- rewrite Hl, fmap_app, elem_of_app. now left.
        -- now apply Hall.
    + unfold layers_new, layers_contains in H1.
      rewrite bool_decide_eq_false_2 in H1 by exact Hin.
      apply libcall_ok_inv in H1. destruct H1 as (-> & -> & _).
      simpl in Hh, Hm, Hl, Hadd, Hall.
      split; [exact Hh|]. split; [exact Hm|]. exists (n :: added).
      split; [now rewrite Hl, <- app_assoc|].
      split; [now rewrite Ht, <- app_assoc|]. split.
      * intros m Hmem. apply elem_of_cons in Hmem. destruct Hmem as [->|Hmem].
        -- split; [apply list_elem_of_here | exact Hin].
        -- destruct (Hadd m Hmem) as [Hn Hk].
           split; [now apply list_elem_of_further|].
           intros Hk'. apply Hk. rewrite fmap_app, elem_of_app. now left.
      * intros m Hmem. apply elem_of_cons in Hmem. destruct Hmem as [->|Hmem].
        -- rewrite Hl, fmap_app, elem_of_app. left.
           rewrite fmap_app, elem_of_app. right. simpl. apply list_elem_of_here.
        -- now apply Hall.
Qed.

(** *** Successful runs, taken apart *)

Lemma make_layers_ok_inv (names : list string) (d d' : document) (t t' : trace) :
  _make_layers d names t = (Ok d', t') ->
  d' = set_layers (ensure_layers (layers d) names) d
  /\ t' = t ++ make_layers_events (layers d) names.
Proof.
  revert d t. induction names as [|n names IH]; intros d t; simpl.
  - intros [= <- <-]. now rewrite set_layers_same, app_nil_r.
  - intros H. apply bind_ok_inv in H. destruct H as (d1 & t1 & H1 & H2).
    destruct (IH _ _ H2) as [-> ->].
    unfold layers_contains in H1. unfold ensure_layer.
    case_bool_decide as Hin; simpl in H1.
    + now injection H1 as <- <-.
    + unfold layers_new, layers_contains in H1.
      rewrite bool_decide_eq_false_2 in H1 by exact Hin.
      apply libcall_ok_inv in H1. destruct H1 as (-> & -> & _).
      simpl. now rewrite <- app_assoc.
Qed.

Lemma lib_new_ok_inv (v : string) (d : document) (t t' : trace) :
  lib_new v t = (Ok d, t') ->
  ezdxf_new v = inr d /\ t' = t ++ [Event (call_new v) None].
Proof.
  unfold lib_new, libcall_outcome. destruct (ezdxf_new v); [discriminate|].
  now intros [= <- <-].
Qed.

Lemma doc_with_units_ok_inv (v : string) (d : document) (t t' : trace) :
  _doc_with_units v t = (Ok d, t') ->
  exists d0,
    ezdxf_new v = inr d0
    /\ d = set_header "$INSUNITS" 4 d0
    /\ t' = t ++ [Event (call_new v) None; Event (call_header_set "$INSUNITS" 4) None].
Proof.
  unfold _doc_with_units. intros H.
  apply bind_ok_inv in H. destruct H as (d0 & t1 & H1 & H2).
  apply lib_new_ok_inv in H1. destruct H1 as [Hnew ->].
  unfold header_setitem in H2. apply libcall_ok_inv in H2.
  destruct H2 as (-> & -> & _). exists d0.
  split; [exact Hnew|]. split; [reflexivity|]. now rewrite <- app_assoc.
Qed.

Lemma add_circle_with_hatch_ok_inv (d d' : document) (cx cy r sp an : PyFloat.float)
    (lc lh : string) (t t' : trace) :
  _add_circle_with_hatch d cx cy r sp an lc lh t = (Ok d', t') ->
  d' = set_modelspace
         (modelspace d ++
            [ Circle (Build_circle (Vec2 cx cy) r lc);
              Hatch (hatch_over lh (Vec2 cx cy) r an sp) ]) d
  /\ t' = t ++ [ Event (call_add_circle (Vec2 cx cy) r lc) None;
                 Event (call_add_hatch lh) None;
                 Event (call_set_associative true) None;
                 Event call_edit_boundary None;
                 Event (call_boundary_add_circle (Vec2 cx cy) r) None;
                 Event (call_set_pattern_fill "ANSI31" an sp) None ].
Proof.
  unfold _add_circle_with_hatch, msp_add_circle, msp_add_hatch,
    hatch_set_associative, hatch_edit_boundary, boundary_add_circle,
    hatch_set_pattern_fill.
  intros H.
  repeat (let a := fresh "a" in let t1 := fresh "t" in let Ha := fresh "Ha" in
          apply bind_ok_inv in H; destruct H as (a & t1 & Ha & H);
          apply libcall_ok_inv in Ha; destruct Ha as (-> & -> & _);
          cbn [fst snd] in H).
  apply libcall_ok_inv in H. destruct H as (-> & -> & _).
  rewrite <- !app_assoc. simpl. split; [|reflexivity].
  rewrite hatch_built. unfold set_modelspace, hatch_over. simpl.
  now rewrite <- app_assoc.
Qed.

Lemma saveas_ok_inv (d : document) (buf : bytes) (t t' : trace) :
  doc_saveas d t = (Ok buf, t') ->
  write_dxf d = inr buf /\ t' = t ++ [Event (call_saveas d) None].
Proof.
  unfold doc_saveas, libcall_outcome. destruct (write_dxf d); [discriminate|].
  now intros [= <- <-].
Qed.

Lemma generate_ok_full_inv (p : GenerateParams) (t t' : trace) (resp : StreamingResponse) :
  generate p t = (Ok resp, t') ->
  exists d0 buf,
    ezdxf_new (version p) = inr d0
    /\ write_dxf (generated_document d0 p) = inr buf
    /\ PyFloat.is_finite (angle_deg p) = true
    /\ resp = dxf_response buf
                ("circle_hatch_" +:+ PyFloat.repr (spacing p) +:+ "mm_"
                 +:+ PyStr.str_of_int (PyFloat.trunc (angle_deg p)) +:+ "deg.dxf")
    /\ t' = t ++ generate_trace d0 p.
Proof.
  unfold generate. intros H.
  apply bind_ok_inv in H. destruct H as (d1 & t1 & H1 & H).
  apply doc_with_units_ok_inv in H1. destruct H1 as (d0 & Hnew & -> & ->).
  apply bind_ok_inv in H. destruct H as (d2 & t2 & H2 & H).
  apply make_layers_ok_inv in H2. destruct H2 as [-> ->].
  apply bind_ok_inv in H. destruct H as (d3 & t3 & H3 & H).
  apply add_circle_with_hatch_ok_inv in H3. destruct H3 as [-> ->].
  apply bind_ok_inv in H. destruct H as (buf & t4 & H4 & H).
  apply saveas_ok_inv in H4.
  change (set_modelspace _ (set_layers _ (set_header _ _ d0)))
    with (generated_document d0 p) in H4.
  destruct H4 as [Hw ->].
  apply bind_ok_inv in H. destruct H as (n & t5 & H5 & H).
  unfold lift in H5. injection H5 as Hn <-.
  apply int_of_float_ok in Hn. destruct Hn as [Hfin ->].
  unfold ret in H. injection H as <- <-.
  exists d0, buf. repeat split; try assumption.
  unfold generate_trace, logged. rewrite Hw.
  cbn [make_layers_events]. rewrite <- !app_assoc. reflexivity.
Qed.

(** *** [_doc_with_units] *)

(** X2.  Whenever [_doc_with_units] returns, the document is the template
    of the version with [$INSUNITS] set to 4, whatever the template had
    there: every other header variable, the layers and the model space are
    the template's, and the two library calls made are [ezdxf.new] and the
    header assignment. *)
Theorem doc_with_units_changes_only_the_units (v : string) (d : document)
    (t t' : trace) :
  _doc_with_units v t = (Ok d, t') ->
  exists d0,
    ezdxf_new v = inr d0
    /\ header d !! "$INSUNITS" = Some 4
    /\ (forall k, k <> "$INSUNITS" -> header d !! k = header d0 !! k)
    /\ layers d = layers d0
    /\ modelspace d = modelspace d0
    /\ t' = t ++ [Event (call_new v) None; Event (call_header_set "$INSUNITS" 4) None].
Proof.
  intros H. apply doc_with_units_ok_inv in H. destruct H as (d0 & Hnew & -> & ->).
  exists d0. split; [exact Hnew|]. simpl.
  split; [apply lookup_insert_eq|]. split; [|now repeat split].
  intros k Hk. now apply lookup_insert_ne.
Qed.

(** *** [_add_circle_with_hatch] *)

(** X3.  Whenever [_add_circle_with_hatch] returns, on a document that may
    already hold entities (hatches included), the header and the layers
    are untouched and the model space is the old one followed by exactly
    two entities: the circle, on the circle layer, and an associative
    hatch on the hatch layer whose only boundary path is a circle of the
    same centre and radius, filled with ANSI31 at the given angle and with
    scale equal to the spacing. *)
Theorem add_circle_with_hatch_appends_two (d d' : document)
    (cx cy r sp an : PyFloat.float) (lc lh : string) (t t' : trace) :
  _add_circle_with_hatch d cx cy r sp an lc lh t = (Ok d', t') ->
  header d' = header d
  /\ layers d' = layers d
  /\ modelspace d'
     = modelspace d ++
         [ Circle (Build_circle (Vec2 cx cy) r lc);
           Hatch (Build_hatch lh true [CirclePath (Vec2 cx cy) r]
                    (Some (Build_pattern_fill "ANSI31" an sp))) ].
Proof.
  intros H. apply add_circle_with_hatch_ok_inv in H. destruct H as [-> _].
  now repeat split.
Qed.

(** *** [generate] *)

(** X4.  Whenever [generate] responds, the body is what the serializer
    wrote for the template of the requested version with [$INSUNITS] set
    to 4, the two layers ensured, and exactly the circle and its hatch
    appended to the model space; the media type is [application/dxf], the
    response has the single Content-Disposition header, and [saveas] was
    called once, as the last library call. *)
Theorem generate_response_is_the_drawing (p : GenerateParams) (t t' : trace)
    (resp : StreamingResponse) :
  generate p t = (Ok resp, t') ->
  exists d0 d,
    ezdxf_new (version p) = inr d0
    /\ header d = <["$INSUNITS" := 4]> (header d0)
    /\ layers d = ensure_layers (layers d0) [layer_circle p; layer_hatch p]
    /\ modelspace d
       = modelspace d0 ++
           [ Circle (Build_circle (Vec2 (center_x p) (center_y p)) (radius p)
                       (layer_circle p));
             Hatch (Build_hatch (layer_hatch p) true
                      [CirclePath (Vec2 (center_x p) (center_y p)) (radius p)]
                      (Some (Build_pattern_fill "ANSI31" (angle_deg p) (spacing p)))) ]
    /\ write_dxf d = inr (body resp)
    /\ media_type resp = "application/dxf"
    /\ length (headers resp) = 1%nat
    /\ exists calls,
         t' = t ++ calls ++ [Event (call_saveas d) None]
         /\ forall ev d1, ev ∈ calls -> ev_call ev <> call_saveas d1.
Proof.
  intros H. apply generate_ok_full_inv in H.
  destruct H as (d0 & buf & Hnew & Hw & _ & -> & ->).
  exists d0, (generated_document d0 p).
  split; [exact Hnew|]. do 3 (split; [reflexivity|]).
  split; [exact Hw|]. do 2 (split; [reflexivity|]).
  unfold generate_trace, logged. rewrite Hw.
  eexists ([_; _] ++ make_layers_events _ _ ++ [_; _; _; _; _; _]).
  split.
  - rewrite <- !app_assoc. reflexivity.
  - intros ev d1 Hin. rewrite !elem_of_app in Hin. destruct Hin as [Hin|[Hin|Hin]].
    + repeat (apply elem_of_cons in Hin; destruct Hin as [->|Hin]; [discriminate|]).
      now apply elem_of_nil in Hin.
    + apply make_layers_events_calls in Hin. destruct Hin as [n ->]. discriminate.
    + repeat (apply elem_of_cons in Hin; destruct Hin as [->|Hin]; [discriminate|]).
      now apply elem_of_nil in Hin.
Qed.

(** X5.  With an angle that is not finite, and a library that succeeds,
    [generate] builds and serializes the whole document before it fails:
    the log is the log of a successful run, [saveas] included, and the
    outcome is the unhandled [ValueError] (NaN) or [OverflowError]
    (infinity) of [int]. *)
Theorem generate_fails_after_serializing (p : GenerateParams) (d0 : document)
    (buf : bytes) (t : trace) :
  PyFloat.is_finite (angle_deg p) = false ->
  ezdxf_new (version p) = inr d0 ->
  quiet (generate_calls p) ->
  write_dxf (generated_document d0 p) = inr buf ->
  (exists e, fst (generate p t) = Unhandled e
             /\ (exc_class e = "ValueError" \/ exc_class e = "OverflowError"))
  /\ snd (generate p t) = t ++ generate_trace d0 p
  /\ Event (call_saveas (generated_document d0 p)) None ∈ snd (generate p t).
Proof.
  intros Hfin Hnew Hq Hw. rewrite (generate_run p d0 t Hnew Hq). simpl fst. simpl snd.
  split; [|split; [reflexivity|]].
  - unfold generate_outcome. rewrite Hw.
    destruct (angle_deg p); try discriminate; simpl; eexists; split; eauto.
  - unfold generate_trace, logged. rewrite Hw. rewrite !elem_of_app.
    right. right. right.
    do 6 apply list_elem_of_further. apply list_elem_of_here.
Qed.


(** *** The schema *)

(** X7.  The schema check passes exactly when radius and spacing are each
    a positive finite number or plus infinity: NaN, both zeros, negative
    numbers and minus infinity are refused, plus infinity is let in; the
    centre, the angle, the layer names and the version play no part. *)
Theorem valid_params_iff (p : GenerateParams) :
  valid_params p = true
  <-> match radius p with
      | S754_finite false _ _ | S754_infinity false => True
      | _ => False
      end
      /\ match spacing p with
         | S754_finite false _ _ | S754_infinity false => True
         | _ => False
         end.
Proof.
  unfold valid_params, PyFloat.gt0, PyFloat.zero. rewrite andb_true_iff.
  assert (Hgt : forall x,
             SFltb (S754_zero false) x = true
             <-> match x with
                 | S754_finite false _ _ | S754_infinity false => True
                 | _ => False
                 end).
  { intros [[|]|[|]| |[|] m e]; unfold SFltb; simpl; split; easy. }
  now rewrite !Hgt.
Qed.

(** X8.  A field the body leaves out never fails the schema check: a body
    is valid exactly when the radius, if given, is greater than zero and
    the spacing, if given, is greater than zero. *)
Theorem body_valid_iff (b : GenerateBody) :
  valid_params (params_of_body b) = true
  <-> (forall r, body_radius b = Some r -> PyFloat.gt0 r = true)
      /\ (forall s, body_spacing b = Some s -> PyFloat.gt0 s = true).
Proof.
  unfold valid_params, params_of_body. simpl. rewrite andb_true_iff.
  destruct (body_radius b) as [r|], (body_spacing b) as [s|]; simpl; split.
  - intros [Hr Hs]. split; now intros ? [= <-].
  - intros [Hr Hs]. split; [now apply Hr | now apply Hs].
  - intros [Hr _]. split; [now intros ? [= <-] | discriminate].
  - intros [Hr _]. split; [now apply Hr | reflexivity].
  - intros [_ Hs]. split; [discriminate | now intros ? [= <-]].
  - intros [_ Hs]. split; [reflexivity | now apply Hs].
  - intros _. split; discriminate.
  - intros _. split; reflexivity.
Qed.

(** *** Names of the uploads' answers *)

Lemma append_assoc (a b c : string) : (a +:+ b) +:+ c = a +:+ (b +:+ c).
Proof.
  induction a as [|x a IH]; [reflexivity|].
  rewrite !append_cons. now rewrite IH.
Qed.

(** [rfind] finds an occurrence at least as far right as any given one. *)
Lemma rfind_complete (sep a b : string) :
  exists j, PyStr.rfind sep (a +:+ sep +:+ b) = Some j /\ (String.length a <= j)%nat.
Proof.
  induction a as [|c a IH].
  - rewrite append_nil_l. destruct (sep +:+ b) as [|x s] eqn:Hs; cbn -[String.prefix].
    + rewrite <- Hs, prefix_append. exists 0%nat. now split.
    + destruct (PyStr.rfind sep s) as [i|].
      * exists (S i). split; [reflexivity | simpl; lia].
      * rewrite <- Hs, prefix_append. exists 0%nat. now split.
  - destruct IH as (j & Hj & Hle). rewrite append_cons. cbn -[String.prefix].
    rewrite Hj. exists (S j). split; [reflexivity | simpl; lia].
Qed.

(** X9.  An upload named [<base>.dxf], with the extension in lower case,
    passes the extension check, and every response to it is named
    [<base>_HATCHED.dxf] (also for an empty base, or a base that itself
    contains dots). *)
Theorem upload_lower_case_name (up : UploadFile) (base : string) :
  filename up = base +:+ ".dxf" ->
  has_dxf_extension (filename up) = true
  /\ forall sp an lay t t' resp,
       hatch_on_upload up sp an lay t = (Ok resp, t') ->
       headers resp
       = [("Content-Disposition", content_disposition (base +:+ "_HATCHED.dxf"))].
Proof.
  intros Hname. split.
  - apply has_dxf_extension_spec. now exists base, ".dxf".
  - intros sp an lay t t' resp Hrun.
    now apply (upload_name_lower_case_stripped up sp an lay t t').
Qed.

(** X10.  The name of the answer is cut at the last lower-case [.dxf] of
    the upload's name, wherever it stands: when the name is
    [a ++ .dxf ++ b] and no [.dxf] starts further right, every response is
    named [<a>_HATCHED.dxf], and whatever followed ([b], for instance an
    upper-case extension) is lost. *)
Theorem upload_name_cut_at_last_dxf (up : UploadFile) (sp an : PyFloat.float)
    (lay : string) (t t' : trace) (resp : StreamingResponse) (a b : string) :
  filename up = a +:+ ".dxf" +:+ b ->
  (forall a' b', filename up = a' +:+ ".dxf" +:+ b' ->
                 (String.length a' <= String.length a)%nat) ->
  hatch_on_upload up sp an lay t = (Ok resp, t') ->
  headers resp
  = [("Content-Disposition", content_disposition (a +:+ "_HATCHED.dxf"))].
Proof.
  intros Hname Hlast Hrun.
  destruct (upload_ok_inv _ _ _ _ _ _ _ Hrun) as (_ & buf & ->).
  simpl headers.
  destruct (rfind_complete ".dxf" a b) as (j & Hj & Hle).
  rewrite <- Hname in Hj. unfold PyStr.rsplit1. rewrite Hj. simpl PyStr.item0.
  destruct (rfind_sound _ _ _ Hj) as (a1 & b1 & Heq & Hlen).
  specialize (Hlast a1 b1 Heq).
  assert (j = String.length a) as -> by lia.
  rewrite Hname. now rewrite substring_prefix.
Qed.

(** X11.  The answers of both handlers can be uploaded again: the name of
    every response, of [generate] or of [hatch_on_upload], is some
    [<base>.dxf] in lower case, so it passes the extension check, and an
    upload under that name is answered under [<base>_HATCHED.dxf]. *)
Theorem response_names_can_be_uploaded (p : GenerateParams) (up : UploadFile)
    (sp an : PyFloat.float) (lay : string) (t t' : trace) (resp : StreamingResponse) :
  generate p t = (Ok resp, t') \/ hatch_on_upload up sp an lay t = (Ok resp, t') ->
  exists base,
    headers resp = [("Content-Disposition", content_disposition (base +:+ ".dxf"))]
    /\ has_dxf_extension (base +:+ ".dxf") = true
    /\ forall up2 sp2 an2 lay2 t2 t2' resp2,
         filename up2 = base +:+ ".dxf" ->
         hatch_on_upload up2 sp2 an2 lay2 t2 = (Ok resp2, t2') ->
         headers resp2
         = [("Content-Disposition", content_disposition (base +:+ "_HATCHED.dxf"))].
Proof.
  assert (Hgen : forall base (r : StreamingResponse),
             headers r = [("Content-Disposition", content_disposition (base +:+ ".dxf"))] ->
             exists base,
               headers r = [("Content-Disposition", content_disposition (base +:+ ".dxf"))]
               /\ has_dxf_extension (base +:+ ".dxf") = true
               /\ forall up2 sp2 an2 lay2 t2 t2' resp2,
                    filename up2 = base +:+ ".dxf" ->
                    hatch_on_upload up2 sp2 an2 lay2 t2 = (Ok resp2, t2') ->
                    headers resp2
                    = [("Content-Disposition",
                        content_disposition (base +:+ "_HATCHED.dxf"))]).
  { intros base r Hr. exists base. split; [exact Hr|]. split.
    - apply has_dxf_extension_spec. now exists base, ".dxf".
    - intros up2 sp2 an2 lay2 t2 t2' resp2 Hname Hrun.
      now apply (upload_name_lower_case_stripped up2 sp2 an2 lay2 t2 t2'). }
  intros [H|H].
  - apply generate_ok_inv in H. destruct H as (buf & n & _ & ->).
    apply (Hgen ("circle_hatch_" +:+ PyFloat.repr (spacing p) +:+ "mm_"
                 +:+ PyStr.str_of_int n +:+ "deg")).
    simpl headers. now rewrite !append_assoc.
  - apply upload_ok_inv in H. destruct H as (_ & buf & ->).
    apply (Hgen (PyStr.item0 (PyStr.rsplit1 ".dxf" (filename up)) +:+ "_HATCHED")).
    simpl headers. now rewrite !append_assoc.
Qed.

(** *** What the upload handler catches, and in what order it works *)

Lemma upload_after_parse (up : UploadFile) (sp an : PyFloat.float) (lay : string)
    (d : document) (t : trace) :
  has_dxf_extension (filename up) = true ->
  ezdxf_read (file up) = inr d ->
  hatch_on_upload up sp an lay t
  = after_parse up sp an lay d (t ++ [Event (call_read (file up)) None]).
Proof.
  unfold has_dxf_extension, hatch_on_upload. intros -> Hread.
  change (negb true) with false. cbv beta iota zeta.
  now rewrite (bind_ok _ _ _ _ _ (read_ok _ _ _ _ Hread)).
Qed.

Lemma lets_through_ret {A} (a : A) : lets_through (ret a).
Proof.
  intros t. exists []. simpl. rewrite app_nil_r. split; [reflexivity|].
  intros ev e H. now apply elem_of_nil in H.
Qed.

Lemma lets_through_silent {A} (o : outcome A) : lets_through (fun t => (o, t)).
Proof.
  intros t. exists []. simpl. rewrite app_nil_r. split; [reflexivity|].
  intros ev e H. now apply elem_of_nil in H.
Qed.

Lemma lets_through_libcall {A} (c : libcall) (r : exn + A) :
  lets_through (libcall_outcome c r).
Proof.
  intros t. exists [logged c r]. rewrite libcall_logged. simpl.
  split; [reflexivity|]. intros ev e H Hev.
  apply list_elem_of_singleton in H. subst ev.
  destruct r as [e'|a]; simpl in Hev; [now injection Hev as -> | discriminate].
Qed.

Lemma lets_through_bind {A B} (m : M A) (k : A -> M B) :
  lets_through m -> (forall a, lets_through (k a)) -> lets_through (bind m k).
Proof.
  intros Hm Hk t. destruct (Hm t) as (evs1 & Ht1 & Hraise1).
  unfold bind. destruct (m t) as [[a|s d|e] t1] eqn:Hmt; simpl in *.
  - destruct (Hk a t1) as (evs2 & Ht2 & Hraise2).
    exists (evs1 ++ evs2). subst t1. rewrite Ht2, app_assoc.
    split; [reflexivity|].
    intros ev e Hin Hev. apply elem_of_app in Hin. destruct Hin as [Hin|Hin].
    + now specialize (Hraise1 ev e Hin Hev).
    + now apply (Hraise2 ev e).
  - exists evs1. simpl. split; [exact Ht1|].
    intros ev e Hin Hev. now specialize (Hraise1 ev e Hin Hev).
  - exists evs1. simpl. split; [exact Ht1|].
    intros ev e' Hin Hev. specialize (Hraise1 ev e' Hin Hev). congruence.
Qed.

Lemma lets_through_make_layers (names : list string) (d : document) :
  lets_through (_make_layers d names).
Proof.
  revert d. induction names as [|n names IH]; intros d; simpl.
  - apply lets_through_ret.
  - apply lets_through_bind; [|exact IH].
    destruct (negb (layers_contains d n));
      [apply lets_through_libcall | apply lets_through_ret].
Qed.

Lemma lets_through_after_parse (up : UploadFile) (sp an : PyFloat.float)
    (lay : string) (d : document) :
  lets_through (after_parse up sp an lay d).
Proof.
  unfold after_parse. apply lets_through_bind; [apply lets_through_make_layers|].
  intros d1. destruct (first_circle_of (modelspace d1)) as [e|].
  - unfold msp_add_hatch, hatch_set_associative, hatch_edit_boundary,
      boundary_add_circle, hatch_set_pattern_fill, doc_saveas, lift.
    repeat first
      [ apply lets_through_libcall
      | apply lets_through_ret
      | apply lets_through_silent
      | apply lets_through_bind; [|intros ?] ].
  - apply lets_through_silent.
Qed.

(** X12.  The [try] of [hatch_on_upload] covers the parse only.  Once the
    upload has been parsed, any exception raised by a later library call
    (the layer, the hatch, its boundary, its pattern, the serializer) is
    not turned into HTTP 400: it is the outcome, unhandled. *)
Theorem upload_catches_only_the_parse (up : UploadFile) (sp an : PyFloat.float)
    (lay : string) (t : trace) (d : document) :
  has_dxf_extension (filename up) = true ->
  ezdxf_read (file up) = inr d ->
  exists evs,
    snd (hatch_on_upload up sp an lay t)
    = t ++ Event (call_read (file up)) None :: evs
    /\ forall ev e, ev ∈ evs -> ev_raised ev = Some e ->
         fst (hatch_on_upload up sp an lay t) = Unhandled e.
Proof.
  intros Hext Hread. rewrite (upload_after_parse up sp an lay d t Hext Hread).
  destruct (lets_through_after_parse up sp an lay d
              (t ++ [Event (call_read (file up)) None])) as (evs & Hevs & Hraise).
  exists evs. split; [|exact Hraise].
  rewrite Hevs. now rewrite <- app_assoc.
Qed.



(** X14.  The hatch layer is created before the circle is looked for.  On
    a parsed document that lacks the layer: when [layers.new] raises, the
    outcome is that unhandled exception, whether the document holds a
    circle or not; and when it succeeds on a document without a circle,
    the rejection with HTTP 400 comes after the layer has been created. *)
Theorem upload_creates_layer_before_circle_check (up : UploadFile)
    (sp an : PyFloat.float) (lay : string) (t : trace) (d : document) :
  has_dxf_extension (filename up) = true ->
  ezdxf_read (file up) = inr d ->
  layer_key lay ∉ layer_key <$> layers d ->
  (forall e,
      lib_raises d (call_layers_new lay) = Some e ->
      hatch_on_upload up sp an lay t
      = (Unhandled e,
         t ++ [ Event (call_read (file up)) None;
                Event (call_layers_new lay) (Some e) ]))
  /\ (lib_raises d (call_layers_new lay) = None ->
      no_circle (modelspace d) ->
      hatch_on_upload up sp an lay t
      = (HTTPException 400 "Nessun CIRCLE trovato nel DXF caricato.",
         t ++ [ Event (call_read (file up)) None;
                Event (call_layers_new lay) None ])).
Proof.
  intros Hext Hread Hmissing. split.
  - intros e He. rewrite (upload_after_parse up sp an lay d t Hext Hread).
    unfold after_parse. cbn [_make_layers]. unfold bind at 1 2.
    unfold layers_contains. rewrite bool_decide_eq_false_2 by exact Hmissing.
    cbn [negb]. unfold layers_new, layers_contains.
    rewrite bool_decide_eq_false_2 by exact Hmissing.
    rewrite (libcall_fails _ _ _ e) by exact He.
    now rewrite <- app_assoc.
  - intros Hnone Hnc. apply first_circle_of_none in Hnc.
    rewrite (upload_no_circle up sp an lay t d Hext Hread Hnone Hnc).
    cbn [make_layers_events]. rewrite bool_decide_eq_false_2 by exact Hmissing.
    reflexivity.
Qed.

(** *** No call after a failure *)

Lemma halts_silent {A} (o : outcome A) : halts (fun t => (o, t)).
Proof.
  intros t. exists []. simpl. rewrite app_nil_r. split; [reflexivity|].
  left. constructor.
Qed.

Lemma halts_libcall {A} (c : libcall) (r : exn + A) : halts (libcall_outcome c r).
Proof.
  intros t. exists [logged c r]. rewrite libcall_logged. simpl.
  split; [reflexivity|]. destruct r as [e|a].
  - right. exists [], (Event c (Some e)). split; [reflexivity|].
    split; [constructor | discriminate].
  - left. repeat constructor.
Qed.

Lemma halts_bind {A B} (m : M A) (k : A -> M B) :
  halts m -> (forall a, halts (k a)) -> halts (bind m k).
Proof.
  intros Hm Hk t. destruct (Hm t) as (evs1 & Ht1 & Hcase).
  unfold bind. destruct (m t) as [[a|s d|e] t1] eqn:Hmt; simpl in *.
  - assert (Hclean : clean evs1).
    { destruct Hcase as [H|(pre & ev & _ & _ & H)]; [exact H | now destruct (H a)]. }
    destruct (Hk a t1) as (evs2 & Ht2 & Hcase2).
    exists (evs1 ++ evs2). subst t1. rewrite Ht2, app_assoc.
    split; [reflexivity|].
    destruct Hcase2 as [H2|(pre & ev & -> & Hpre & Hno)].
    + left. now apply Forall_app.
    + right. exists (evs1 ++ pre), ev. rewrite app_assoc.
      split; [reflexivity|]. split; [now apply Forall_app | exact Hno].
  - exists evs1. simpl. split; [exact Ht1|].
    destruct Hcase as [H|(pre & ev & -> & Hpre & _)]; [now left|].
    right. exists pre, ev. split; [reflexivity|]. split; [exact Hpre | discriminate].
  - exists evs1. simpl. split; [exact Ht1|].
    destruct Hcase as [H|(pre & ev & -> & Hpre & _)]; [now left|].
    right. exists pre, ev. split; [reflexivity|]. split; [exact Hpre | discriminate].
Qed.

Lemma halts_make_layers (names : list string) (d : document) :
  halts (_make_layers d names).
Proof.
  revert d. induction names as [|n names IH]; intros d; simpl.
  - apply (halts_silent (Ok d)).
  - apply halts_bind; [|exact IH].
    destruct (negb (layers_contains d n));
      [apply halts_libcall | apply (halts_silent (Ok d))].
Qed.

Lemma halts_generate (p : GenerateParams) : halts (generate p).
Proof.
  unfold generate, _doc_with_units, _add_circle_with_hatch, lib_new,
    header_setitem, msp_add_circle, msp_add_hatch, hatch_set_associative,
    hatch_edit_boundary, boundary_add_circle, hatch_set_pattern_fill, doc_saveas,
    lift, ret.
  repeat first
    [ apply halts_make_layers
    | apply halts_libcall
    | apply halts_silent
    | apply halts_bind; [|intros ?] ].
Qed.

Lemma halts_read (content : bytes) (f : exn -> string) :
  halts (try_except (lib_read content) (fun e => raise_http 400 (f e))).
Proof.
  intros t. unfold try_except, lib_read, libcall_outcome, raise_http.
  destruct (ezdxf_read content) as [e|d]; simpl.
  - exists [Event (call_read content) (Some e)]. split; [reflexivity|].
    right. exists [], (Event (call_read content) (Some e)).
    split; [reflexivity|]. split; [constructor | discriminate].
  - exists [Event (call_read content) None]. split; [reflexivity|].
    left. repeat constructor.
Qed.

Lemma halts_upload (up : UploadFile) (sp an : PyFloat.float) (lay : string) :
  halts (hatch_on_upload up sp an lay).
Proof.
  unfold hatch_on_upload.
  destruct (negb (PyStr.endswith (PyStr.lower (filename up)) ".dxf")).
  - apply halts_silent.
  - cbv zeta. apply halts_bind; [apply halts_read|]. intros d.
    apply halts_bind; [apply halts_make_layers|]. intros d1.
    destruct (first_circle_of (modelspace d1)) as [e|].
    + unfold msp_add_hatch, hatch_set_associative, hatch_edit_boundary,
        boundary_add_circle, hatch_set_pattern_fill, doc_saveas, lift, ret.
      repeat first
        [ apply halts_libcall
        | apply halts_silent
        | apply halts_bind; [|intros ?] ].
    + apply halts_silent.
Qed.

Lemma halts_last {A} (m : M A) (t : trace) (pre post : list event) (ev : event) :
  halts m ->
  snd (m t) = t ++ pre ++ ev :: post ->
  ev_raised ev <> None ->
  post = [] /\ forall a, fst (m t) <> Ok a.
Proof.
  intros Hm Hsnd Hev. destruct (Hm t) as (evs & Hevs & Hcase).
  rewrite Hevs in Hsnd. apply app_inv_head in Hsnd. subst evs.
  destruct Hcase as [Hclean|(pre' & ev' & Heq & Hpre & Hno)].
  - exfalso. apply Forall_app in Hclean. destruct Hclean as [_ Hclean].
    apply Forall_cons in Hclean. now destruct Hclean.
  - split; [|exact Hno].
    destruct post as [|x post] using rev_ind; [reflexivity|]. exfalso.
    change (pre ++ ev :: post ++ [x]) with (pre ++ (ev :: post) ++ [x]) in Heq.
    rewrite app_assoc in Heq. apply app_inj_tail in Heq. destruct Heq as [<- _].
    apply Forall_app in Hpre. destruct Hpre as [_ Hpre].
    apply Forall_cons in Hpre. now destruct Hpre.
Qed.

(** X15.  Neither handler calls the library again after a call that
    raised: in the log of [generate] and in the log of [hatch_on_upload],
    an entry that raised is the last entry, and the run then returns no
    response. *)
Theorem handlers_stop_at_first_failure (p : GenerateParams) (up : UploadFile)
    (sp an : PyFloat.float) (lay : string) (t : trace) :
  (forall pre ev post,
      snd (generate p t) = t ++ pre ++ ev :: post ->
      ev_raised ev <> None ->
      post = [] /\ forall r, fst (generate p t) <> Ok r)
  /\ (forall pre ev post,
         snd (hatch_on_upload up sp an lay t) = t ++ pre ++ ev :: post ->
         ev_raised ev <> None ->
         post = [] /\ forall r, fst (hatch_on_upload up sp an lay t) <> Ok r).
Proof.
  split; intros pre ev post.
  - apply halts_last, halts_generate.
  - apply halts_last, halts_upload.
Qed.

End Handlers.

(** ** The float writer on the examples' values *)

Example repr_spacing_default : PyFloat.repr Sample.f0_2 = "0.2".
Proof. vm_compute. reflexivity. Qed.

Example repr_integral : PyFloat.repr Sample.f10 = "10.0".
Proof. vm_compute. reflexivity. Qed.

(** One hundred-thousandth, [0x3EE4F8B588E368F1], goes to exponent notation. *)
Example repr_small : PyFloat.repr (S754_finite false 5902958103587057 (-69)) = "1e-05".
Proof. vm_compute. reflexivity. Qed.

(** The sum [0.1 + 0.2] needs all its seventeen digits. *)
Example repr_seventeen_digits :
  PyFloat.repr (S754_finite false 5404319552844596 (-54)) = "0.30000000000000004".
Proof. vm_compute. reflexivity. Qed.

(** ** The handlers on the stand-in library *)

Abbreviation sample_generate :=
  (generate Sample.new Sample.write Sample.raises Sample.key).
Abbreviation sample_upload :=
  (hatch_on_upload Sample.read Sample.write Sample.raises Sample.key).

(** An upper-case extension is accepted and stays in the answer's name. *)
Lemma upload_name_other_case_witness :
  exists resp t',
    sample_upload Sample.upload_upper Sample.f0_2 Sample.f45 "HATCH" [] = (Ok resp, t')
    /\ headers resp
       = [("Content-Disposition", content_disposition "PLATE.DXF_HATCHED.dxf")]
    /\ PyStr.item0 (PyStr.rsplit1 ".dxf" "PLATE.DXF") <> "PLATE".
Proof.
  assert (H : exists resp t',
             sample_upload Sample.upload_upper Sample.f0_2 Sample.f45 "HATCH" []
             = (Ok resp, t')) by (vm_compute; eauto).
  destruct H as (resp & t' & Hrun). exists resp, t'. split; [exact Hrun|].
  destruct (upload_name_other_case_not_stripped
              Sample.read Sample.write Sample.raises Sample.key
              Sample.upload_upper Sample.f0_2 Sample.f45 "HATCH" [] t' resp
              "PLATE" ".DXF" eq_refl eq_refl ltac:(discriminate) Hrun)
    as (_ & Hname & Hbase).
  split; [exact Hname | exact Hbase].
Defined.

(** With a lower-case extension the name is the one the claim gives. *)
Example upload_name_lower_case :
  fst (sample_upload Sample.upload_lower Sample.f0_2 Sample.f45 "HATCH" [])
  = Ok (dxf_response
          [Byte.x4c; Byte.x43; Byte.x43; Byte.x48; Byte.x45; Byte.x4f; Byte.x46]
          "plate_HATCHED.dxf").
Proof. vm_compute. reflexivity. Qed.


(** The request of the specification's example: spacing 0.2, angle 45. *)
Lemma generate_filename_witness :
  exists resp t',
    sample_generate Sample.request [] = (Ok resp, t')
    /\ headers resp
       = [("Content-Disposition", content_disposition "circle_hatch_0.2mm_45deg.dxf")].
Proof.
  assert (H : exists resp t', sample_generate Sample.request [] = (Ok resp, t'))
    by (vm_compute; eauto).
  destruct H as (resp & t' & Hrun). exists resp, t'. split; [exact Hrun|].
  exact (proj1 (generate_filename Sample.new Sample.write Sample.raises Sample.key
                  Sample.request eq_refl eq_refl) [] t' resp Hrun).
Defined.

(** A valid request with an infinite angle gets no response, whatever the
    library does. *)
Lemma generate_filename_infinite_angle :
  valid_params Sample.request_inf_angle = true
  /\ forall new write raises key t resp t',
       generate new write raises key Sample.request_inf_angle t <> (Ok resp, t').
Proof.
  split; [reflexivity|]. intros new write raises key t resp t' H.
  apply generate_ok_inv in H. destruct H as (buf & n & Hn & _). discriminate.
Qed.


(** The same name for both layers gives one layer, not two. *)
Example generate_same_layer_twice :
  ensure_layers Sample.key ["0"; "Defpoints"] ["Hatch"; "HATCH"]
  = ["0"; "Defpoints"; "Hatch"].
Proof. vm_compute. reflexivity. Qed.

Lemma upload_rejects_bad_extension_witness :
  sample_upload Sample.upload_text Sample.f0_2 Sample.f45 "HATCH" []
  = (HTTPException 400 "Carica un file .dxf", []).
Proof.
  apply (upload_rejects_bad_extension
           Sample.read Sample.write Sample.raises Sample.key
           Sample.upload_text Sample.f0_2 Sample.f45 "HATCH" []).
  intros H. apply has_dxf_extension_spec in H. vm_compute in H. discriminate.
Defined.

Lemma upload_rejects_unparsable_witness :
  sample_upload Sample.upload_empty Sample.f0_2 Sample.f45 "HATCH" []
  = (HTTPException 400 "DXF non valido: Not a DXF file.",
     [Event (call_read []) (Some (Exc "DXFStructureError" "Not a DXF file."))]).
Proof.
  apply (upload_rejects_unparsable
           Sample.read Sample.write Sample.raises Sample.key
           Sample.upload_empty Sample.f0_2 Sample.f45 "HATCH" []
           (Exc "DXFStructureError" "Not a DXF file.")); reflexivity.
Defined.

Lemma upload_rejects_no_circle_witness :
  fst (sample_upload Sample.upload_lines Sample.f0_2 Sample.f45 "HATCH" [])
  = HTTPException 400 "Nessun CIRCLE trovato nel DXF caricato.".
Proof.
  destruct (upload_rejects_no_circle
              Sample.read Sample.write Sample.raises Sample.key
              Sample.upload_lines Sample.f0_2 Sample.f45 "HATCH" []
              (Build_document ∅ ["0"] [Other "LINE"; Other "LINE"])
              eq_refl eq_refl
              ltac:(repeat constructor; discriminate)
              ltac:(right; reflexivity))
    as [Hrun _].
  now rewrite Hrun.
Defined.

(** With a library whose [layers.new] fails, the same drawing without a
    circle, parsed all the same, is not answered with HTTP 400: the
    failure of the layer call, made before the circle is looked for, comes
    out unhandled. *)
Lemma upload_no_circle_layer_failure :
  has_dxf_extension (filename Sample.upload_lines) = true
  /\ Sample.read (file Sample.upload_lines)
     = inr (Build_document ∅ ["0"] [Other "LINE"; Other "LINE"])
  /\ no_circle [Other "LINE"; Other "LINE"]
  /\ hatch_on_upload Sample.read Sample.write Sample.raises_on_layer Sample.key
       Sample.upload_lines Sample.f0_2 Sample.f45 "HATCH" []
     = (Unhandled (Exc "DXFValueError" "invalid layer name"),
        [ Event (call_read (file Sample.upload_lines)) None;
          Event (call_layers_new "HATCH")
            (Some (Exc "DXFValueError" "invalid layer name")) ]).
Proof.
  split; [reflexivity|]. split; [reflexivity|].
  split; [repeat constructor; discriminate|].
  vm_compute. reflexivity.
Qed.

(** A library failure in the middle of [generate] comes out unhandled. *)
Example generate_hatch_failure_unhandled :
  fst (generate Sample.new Sample.write Sample.raises_on_hatch Sample.key
         Sample.request [])
  = Unhandled (Exc "DXFValueError" "invalid layer name").
Proof. vm_compute. reflexivity. Qed.



(** A negative spacing and a NaN angle: the drawing without a circle is
    rejected for want of a circle, the drawing with circles is not rejected. *)
Lemma upload_rejections_ignore_spacing_and_angle_witness :
  (exists detail,
     fst (sample_upload Sample.upload_lines Sample.minus1 S754_nan "HATCH" [])
     = HTTPException 400 detail)
  /\ ~ (exists detail,
          fst (sample_upload Sample.upload_lower Sample.minus1 S754_nan "HATCH" [])
          = HTTPException 400 detail).
Proof.
  split.
  - apply (proj1 (upload_rejections_ignore_spacing_and_angle
                    Sample.read Sample.write Sample.raises Sample.key
                    Sample.upload_lines Sample.minus1 S754_nan "HATCH" [])).
    right. right. exists (Build_document ∅ ["0"] [Other "LINE"; Other "LINE"]).
    split; [reflexivity|]. split; [right; reflexivity|].
    repeat constructor; discriminate.
  - intros H.
    apply (proj1 (upload_rejections_ignore_spacing_and_angle
                    Sample.read Sample.write Sample.raises Sample.key
                    Sample.upload_lower Sample.minus1 S754_nan "HATCH" [])) in H.
    destruct H as [H|[[e H]|(d & Hd & _ & Hnone)]]; [discriminate H | discriminate H |].
    injection Hd as <-. unfold no_circle in Hnone. simpl in Hnone.
    apply Forall_cons in Hnone. destruct Hnone as [_ Hnone].
    apply Forall_cons in Hnone. destruct Hnone as [Hcircle _].
    now apply Hcircle.
Defined.

(** With a library whose [layers.new] fails, the drawing without a circle
    passes the extension check, parses, holds no circle, and yet is not
    answered with HTTP 400. *)
Lemma upload_rejection_needs_the_layer :
  has_dxf_extension (filename Sample.upload_lines) = true
  /\ (exists d, Sample.read (file Sample.upload_lines) = inr d
                /\ no_circle (modelspace d))
  /\ ~ (exists detail,
          fst (hatch_on_upload Sample.read Sample.write Sample.raises_on_layer
                 Sample.key Sample.upload_lines Sample.minus1 S754_nan "HATCH" [])
          = HTTPException 400 detail).
Proof.
  split; [reflexivity|]. split.
  - eexists. split; [reflexivity|]. repeat constructor; discriminate.
  - intros [detail H]. vm_compute in H. discriminate H.
Qed.

(** ** The further properties on the stand-in library *)

(** Four names asked of the template: two are new, one is a second
    spelling of a new one, one is there already. *)
Lemma make_layers_only_appends_witness :
  exists d' t',
    _make_layers Sample.raises Sample.key Sample.template
      ["CIRCLE"; "circle"; "0"; "HATCH"] [] = (Ok d', t')
    /\ layers d' = ["0"; "Defpoints"; "CIRCLE"; "HATCH"]
    /\ modelspace d' = [].
Proof.
  assert (H : exists d' t',
             _make_layers Sample.raises Sample.key Sample.template
               ["CIRCLE"; "circle"; "0"; "HATCH"] [] = (Ok d', t')
             /\ layers d' = ["0"; "Defpoints"; "CIRCLE"; "HATCH"])
    by (vm_compute; eauto).
  destruct H as (d' & t' & Hrun & Hlayers). exists d', t'.
  split; [exact Hrun|]. split; [exact Hlayers|].
  exact (proj1 (proj2 (make_layers_only_appends Sample.raises Sample.key
                         _ Sample.template d' [] t' Hrun))).
Defined.

Lemma doc_with_units_changes_only_the_units_witness :
  exists d t',
    _doc_with_units Sample.new Sample.raises "R2018" [] = (Ok d, t')
    /\ header d !! "$INSUNITS" = Some 4
    /\ layers d = ["0"; "Defpoints"].
Proof.
  assert (H : exists d t',
             _doc_with_units Sample.new Sample.raises "R2018" [] = (Ok d, t'))
    by (vm_compute; eauto).
  destruct H as (d & t' & Hrun). exists d, t'. split; [exact Hrun|].
  destruct (doc_with_units_changes_only_the_units Sample.new Sample.raises
              "R2018" d [] t' Hrun) as (d0 & Hnew & Hunits & _ & Hlayers & _).
  split; [exact Hunits|]. rewrite Hlayers. now injection Hnew as <-.
Defined.

(** A circle and its hatch added to a drawing that holds a hatch already. *)
Lemma add_circle_with_hatch_appends_two_witness :
  exists d' t',
    _add_circle_with_hatch Sample.raises
      (Build_document ∅ ["0"] [Hatch (new_hatch "OLD")])
      Sample.f1 Sample.f1 Sample.f10 Sample.f0_2 Sample.f45 "CIRCLE" "HATCH" []
    = (Ok d', t')
    /\ modelspace d'
       = [ Hatch (new_hatch "OLD");
           Circle (Build_circle (Vec2 Sample.f1 Sample.f1) Sample.f10 "CIRCLE");
           Hatch (Build_hatch "HATCH" true
                    [CirclePath (Vec2 Sample.f1 Sample.f1) Sample.f10]
                    (Some (Build_pattern_fill "ANSI31" Sample.f45 Sample.f0_2))) ].
Proof.
  assert (H : exists d' t',
             _add_circle_with_hatch Sample.raises
               (Build_document ∅ ["0"] [Hatch (new_hatch "OLD")])
               Sample.f1 Sample.f1 Sample.f10 Sample.f0_2 Sample.f45
               "CIRCLE" "HATCH" [] = (Ok d', t'))
    by (vm_compute; eauto).
  destruct H as (d' & t' & Hrun). exists d', t'. split; [exact Hrun|].
  exact (proj2 (proj2 (add_circle_with_hatch_appends_two Sample.raises
                         _ d' _ _ _ _ _ _ _ [] t' Hrun))).
Defined.

Lemma generate_response_is_the_drawing_witness :
  exists resp t',
    sample_generate Sample.request [] = (Ok resp, t')
    /\ media_type resp = "application/dxf"
    /\ exists d, Sample.write d = inr (body resp) /\ length (modelspace d) = 2%nat.
Proof.
  assert (H : exists resp t', sample_generate Sample.request [] = (Ok resp, t'))
    by (vm_compute; eauto).
  destruct H as (resp & t' & Hrun). exists resp, t'. split; [exact Hrun|].
  destruct (generate_response_is_the_drawing
              Sample.new Sample.write Sample.raises Sample.key
              Sample.request [] t' resp Hrun)
    as (d0 & d & Hnew & _ & _ & Hmsp & Hw & Hmedia & _).
  split; [exact Hmedia|]. exists d. split; [exact Hw|].
  rewrite Hmsp. injection Hnew as <-. reflexivity.
Defined.

Lemma generate_fails_after_serializing_witness :
  (exists e, fst (sample_generate Sample.request_nan_angle []) = Unhandled e
             /\ (exc_class e = "ValueError" \/ exc_class e = "OverflowError"))
  /\ Event (call_saveas (generated_document Sample.key Sample.template
                           Sample.request_nan_angle)) None
       ∈ snd (sample_generate Sample.request_nan_angle []).
Proof.
  destruct (generate_fails_after_serializing
              Sample.new Sample.write Sample.raises Sample.key
              Sample.request_nan_angle Sample.template
              [Byte.x43; Byte.x48; Byte.x45; Byte.x4f; Byte.x46] []
              eq_refl eq_refl ltac:(repeat constructor) eq_refl)
    as (Hout & _ & Hsave).
  split; [exact Hout | exact Hsave].
Defined.


Lemma upload_lower_case_name_witness :
  has_dxf_extension (filename Sample.upload_lower) = true
  /\ exists resp t',
       sample_upload Sample.upload_lower Sample.f0_2 Sample.f45 "HATCH" [] = (Ok resp, t')
       /\ headers resp
          = [("Content-Disposition", content_disposition "plate_HATCHED.dxf")].
Proof.
  destruct (upload_lower_case_name
              Sample.read Sample.write Sample.raises Sample.key
              Sample.upload_lower "plate" eq_refl) as [Hext Hname].
  split; [exact Hext|].
  assert (H : exists resp t',
             sample_upload Sample.upload_lower Sample.f0_2 Sample.f45 "HATCH" []
             = (Ok resp, t')) by (vm_compute; eauto).
  destruct H as (resp & t' & Hrun). exists resp, t'. split; [exact Hrun|].
  exact (Hname _ _ _ _ _ _ Hrun).
Defined.

(** The name [a.dxf.DXF] is answered under [a_HATCHED.dxf]. *)
Lemma upload_name_cut_at_last_dxf_witness :
  exists resp t',
    sample_upload Sample.upload_inner
      Sample.f0_2 Sample.f45 "HATCH" [] = (Ok resp, t')
    /\ headers resp
       = [("Content-Disposition", content_disposition "a_HATCHED.dxf")].
Proof.
  assert (H : exists resp t',
             sample_upload Sample.upload_inner
               Sample.f0_2 Sample.f45 "HATCH" [] = (Ok resp, t'))
    by (vm_compute; eauto).
  destruct H as (resp & t' & Hrun). exists resp, t'. split; [exact Hrun|].
  apply (upload_name_cut_at_last_dxf
           Sample.read Sample.write Sample.raises Sample.key
           Sample.upload_inner
           Sample.f0_2 Sample.f45 "HATCH" [] t' resp "a" ".DXF" eq_refl);
    [|exact Hrun].
  intros a' b' H. simpl filename in H.
  destruct a' as [|c0 [|c1 a']]; [simpl; lia | simpl; lia |]. exfalso.
  rewrite !append_cons in H. injection H as _ _ H.
  repeat (destruct a' as [|? a'];
          [ rewrite ?append_cons, ?append_nil_l in H; discriminate H
          | rewrite append_cons in H; injection H as _ H ]).
  destruct a'; rewrite ?append_cons, ?append_nil_l in H; discriminate H.
Defined.

Lemma response_names_can_be_uploaded_witness :
  exists resp t' base,
    sample_generate Sample.request [] = (Ok resp, t')
    /\ headers resp = [("Content-Disposition", content_disposition (base +:+ ".dxf"))]
    /\ has_dxf_extension (base +:+ ".dxf") = true.
Proof.
  assert (H : exists resp t', sample_generate Sample.request [] = (Ok resp, t'))
    by (vm_compute; eauto).
  destruct H as (resp & t' & Hrun).
  destruct (response_names_can_be_uploaded
              Sample.new Sample.read Sample.write Sample.raises Sample.key
              Sample.request Sample.upload_lower Sample.f0_2 Sample.f45 "HATCH"
              [] t' resp (or_introl Hrun))
    as (base & Hname & Hext & _).
  exists resp, t', base. split; [exact Hrun|]. split; [exact Hname | exact Hext].
Defined.

(** A library whose [add_hatch] fails: the upload ends with that failure,
    not with HTTP 400. *)
Lemma upload_catches_only_the_parse_witness :
  fst (hatch_on_upload Sample.read Sample.write Sample.raises_on_hatch Sample.key
         Sample.upload_lower Sample.f0_2 Sample.f45 "HATCH" [])
  = Unhandled (Exc "DXFValueError" "invalid layer name").
Proof.
  destruct (upload_catches_only_the_parse
              Sample.read Sample.write Sample.raises_on_hatch Sample.key
              Sample.upload_lower Sample.f0_2 Sample.f45 "HATCH" []
              Sample.parsed_lower
              eq_refl eq_refl)
    as (evs & Hsnd & Hraise).
  apply (Hraise (Event (call_add_hatch "HATCH")
                   (Some (Exc "DXFValueError" "invalid layer name")))); [|reflexivity].
  vm_compute in Hsnd. injection Hsnd as <-.
  apply list_elem_of_further, list_elem_of_here.
Defined.


(** A drawing of two lines: rejected for want of a circle, after the layer
    HATCH has been created. *)
Lemma upload_creates_layer_before_circle_check_witness :
  sample_upload Sample.upload_lines Sample.f0_2 Sample.f45 "HATCH" []
  = (HTTPException 400 "Nessun CIRCLE trovato nel DXF caricato.",
     [ Event (call_read (file Sample.upload_lines)) None;
       Event (call_layers_new "HATCH") None ]).
Proof.
  apply (proj2 (upload_creates_layer_before_circle_check
                  Sample.read Sample.write Sample.raises Sample.key
                  Sample.upload_lines Sample.f0_2 Sample.f45 "HATCH" []
                  (Build_document ∅ ["0"] [Other "LINE"; Other "LINE"])
                  eq_refl eq_refl
                  ltac:(apply (bool_decide_eq_false_1 _); vm_compute; reflexivity))).
  - reflexivity.
  - repeat constructor; discriminate.
Defined.
